(** * College AI portal: conversational RAG engine and question generator

    A shallow embedding of [Minor/services/question_generator.py] and
    [Minor/services/rag_engine.py], and the properties of the two services.

    Conventions.
    - A Python [str] is a [string]; one element of the string is one Python
      character.  A Python [int] is a [Z].
    - A Python call either returns or raises: [result].  Code that also
      mutates the object it is called on, or calls one of the external
      providers, lives in the state-and-exception monad [M].
    - The external providers (language model, vector store) and the parts of
      the Python runtime the services rely on ([json.loads], the iteration
      order of a [set], [str] of a document list) are interfaces: type
      classes whose methods the services call.  Every call to a provider is
      recorded in a ghost log, so that "the model is invoked once" or "the
      retriever receives this text" are statements about the log. *)

From Stdlib Require Import ZArith String Ascii List Lia.
From Stdlib Require Import Floats.SpecFloat.
From stdpp Require Import base gmap list strings pretty.

Set Warnings "-register-all".

Open Scope Z_scope.

(** ** Python strings *)

Definition dq : string := String "034"%char "".
Definition nl : string := String "010"%char "".

(** A quoted word, as it appears inside the JSON examples of the prompts. *)
Definition q (s : string) : string := dq +:+ s +:+ dq.

(** The text of a triple-quoted literal, given line by line. *)
Definition lines (ls : list string) : string := String.concat nl ls.

(** [s.find(c)] for a one-character [c]: lowest index, or -1. *)
Fixpoint find (c : ascii) (s : string) : Z :=
  match s with
  | EmptyString => -1
  | String a s' =>
      if Ascii.eqb a c then 0
      else let r := find c s' in if r =? -1 then -1 else r + 1
  end.

(** [s.rfind(c)] for a one-character [c]: highest index, or -1. *)
Fixpoint rfind (c : ascii) (s : string) : Z :=
  match s with
  | EmptyString => -1
  | String a s' =>
      let r := rfind c s' in
      if r =? -1 then (if Ascii.eqb a c then 0 else -1) else r + 1
  end.

(** [s[start:stop]], with Python's treatment of negative and oversized
    bounds. *)
Definition slice (s : string) (start stop : Z) : string :=
  let len := Z.of_nat (String.length s) in
  let norm i := if i <? 0 then Z.max (i + len) 0 else Z.min i len in
  let a := norm start in
  let b := norm stop in
  substring (Z.to_nat a) (Z.to_nat (b - a)) s.

(** [range(n)] *)
Definition range (n : Z) : list Z := Z.of_nat <$> seq 0 (Z.to_nat n).

(** ** Python values and exceptions *)

(** The objects [json.loads] can produce, which are also the objects the
    fallback generators build.  A [dict] keeps its insertion order. *)
Inductive value : Type :=
| VNone
| VBool (b : bool)
| VInt (z : Z)
| VFloat (f : spec_float)
| VStr (s : string)
| VList (l : list value)
| VDict (d : list (string * value)).

(** [bool(v)], the test behind [if not questions]. *)
Definition truthy (v : value) : bool :=
  match v with
  | VNone => false
  | VBool b => b
  | VInt z => negb (z =? 0)
  | VFloat (S754_zero _) => false
  | VFloat _ => true
  | VStr s => negb (String.eqb s "")
  | VList l => match l with [] => false | _ => true end
  | VDict d => match d with [] => false | _ => true end
  end.

(** [d[k]] / [d.get(k)] on a dict value. *)
Fixpoint assoc (k : string) (d : list (string * value)) : option value :=
  match d with
  | [] => None
  | (k', v) :: d' => if String.eqb k' k then Some v else assoc k d'
  end.

Definition field (k : string) (v : value) : option value :=
  match v with
  | VDict d => assoc k d
  | _ => None
  end.

Inductive exn : Type :=
| JSONDecodeError
| IndexError
| TypeError
| Fault (detail : string).   (* whatever a provider client raises *)

Inductive result (A : Type) : Type :=
| Ok (a : A)
| Raise (e : exn).
Arguments Ok {A} a.
Arguments Raise {A} e.

(** [len(v)]: only sized objects have a length. *)
Definition len (v : value) : result Z :=
  match v with
  | VStr s => Ok (Z.of_nat (String.length s))
  | VList l => Ok (Z.of_nat (length l))
  | VDict d => Ok (Z.of_nat (length d))
  | _ => Raise TypeError
  end.

(** ** Messages, documents and the ghost log of provider calls *)

Inductive role := system | human | ai.

Record message := Message { msg_role : role; content : string }.

Definition SystemMessage (s : string) : message := Message system s.
Definition HumanMessage (s : string) : message := Message human s.
Definition AIMessage (s : string) : message := Message ai s.

(** A retrieved chunk: its text and its metadata. *)
Record Document := { page_content : string; metadata : gmap string string }.

(** What [collection.get(include=["metadatas", "documents"])] returns: two
    parallel lists.  A chunk stored without metadata has [None] there. *)
Record GetResult := {
  documents : list string;
  metadatas : list (option (gmap string string))
}.

Inductive call : Type :=
| LLMInvoke (prompt : list message)
| RetrieverInvoke (query : string)
| CollectionGet.

(** ** Interfaces of the external world *)

(** The chat model followed by [StrOutputParser]: messages in, text out. *)
Class LanguageModel := { llm_invoke : list message → result string }.

(** The Chroma collection: the retriever built on it, and the full scan. *)
Class VectorStore := {
  retriever_invoke : string → result (list Document);
  collection_get : result GetResult
}.

(** The parts of the Python runtime the services call. *)
Class PyRuntime := {
  json_loads : string → result value;
  (* [list(set(l))]: the elements of [l], each once, in some order *)
  list_of_set : list string → list string;
  list_of_set_NoDup : ∀ l, NoDup (list_of_set l);
  list_of_set_elem : ∀ l x, x ∈ list_of_set l ↔ x ∈ l;
  (* [str(docs)], the text interpolated for [{context}] *)
  str_of_docs : list Document → string
}.

(** ** The state-and-exception monad *)

Definition M (S A : Type) : Type := S → S * result A.

Global Instance M_ret {S} : MRet (M S) := λ A a s, (s, Ok a).

Global Instance M_bind {S} : MBind (M S) := λ A B f m s,
  match m s with
  | (s', Ok a) => f a s'
  | (s', Raise e) => (s', Raise e)
  end.

Definition raise {S A} (e : exn) : M S A := λ s, (s, Raise e).

(** Lift a call that only returns or raises. *)
Definition lift {S A} (r : result A) : M S A := λ s, (s, r).

(** [try: body  except Exception as e: handler(e)] *)
Definition try_except {S A} (body : M S A) (handler : exn → M S A) : M S A :=
  λ s, match body s with
       | (s', Ok a) => (s', Ok a)
       | (s', Raise e) => handler e s'
       end.

(** * Question generator ([services/question_generator.py]) *)

Section QuestionGenerator.
Context `{LanguageModel} `{PyRuntime}.

(** The service keeps no state of its own; the state threaded through its
    methods is the ghost log of provider calls. *)
Definition chain_ainvoke (prompt : list message) : M (list call) string :=
  λ log, (log ++ [LLMInvoke prompt], llm_invoke prompt).

(** The three prompt templates, formatted with their variables.  [{{] and
    [}}] of the templates are the literal braces of the rendered text. *)
Definition assignment_prompt (num_questions : Z) (difficulty context : string)
  : string :=
  lines [
    "You are an expert educator creating an assignment. Using the provided content, generate "
      +:+ pretty num_questions +:+ " assignment questions.";
    "";
    "Difficulty Level: " +:+ difficulty;
    "";
    "Guidelines:";
    "- Create a mix of question types: theory, numerical, analytical, application-based";
    "- Assign appropriate marks: 2-mark, 5-mark, 10-mark questions";
    "- Include marking scheme for each question";
    "- Ensure questions test different aspects and depth levels";
    "";
    "Content:";
    context;
    "";
    "Generate " +:+ pretty num_questions
      +:+ " well-structured assignment questions in this JSON format:";
    "[";
    "  {";
    "    " +:+ q "question_number" +:+ ": 1,";
    "    " +:+ q "question" +:+ ": " +:+ q "Question text here" +:+ ",";
    "    " +:+ q "type" +:+ ": "
      +:+ q "theory/numerical/analytical/application" +:+ ",";
    "    " +:+ q "marks" +:+ ": 5,";
    "    " +:+ q "marking_scheme" +:+ ": "
      +:+ q "Point 1 (2 marks), Point 2 (2 marks), Point 3 (1 mark)" +:+ ",";
    "    " +:+ q "sample_answer" +:+ ": "
      +:+ q "Brief outline of expected answer";
    "  }";
    "]";
    "";
    "Generate the assignment now:" ].

Definition mcq_prompt (num_questions : Z) (difficulty context : string)
  : string :=
  lines [
    "Create " +:+ pretty num_questions
      +:+ " multiple choice questions from the given content.";
    "";
    "Difficulty: " +:+ difficulty;
    "";
    "Requirements:";
    "- 4 options (A, B, C, D) for each question";
    "- Only ONE correct answer";
    "- Distractors should be plausible but clearly incorrect";
    "- Cover different topics from the content";
    "- Mix factual recall, conceptual, and application-based questions";
    "";
    "Content:";
    context;
    "";
    "Generate MCQs in this JSON format:";
    "[";
    "  {";
    "    " +:+ q "question_number" +:+ ": 1,";
    "    " +:+ q "question" +:+ ": " +:+ q "What is...?" +:+ ",";
    "    " +:+ q "options" +:+ ": {";
    "      " +:+ q "A" +:+ ": " +:+ q "Option A text" +:+ ",";
    "      " +:+ q "B" +:+ ": " +:+ q "Option B text" +:+ ",";
    "      " +:+ q "C" +:+ ": " +:+ q "Option C text" +:+ ",";
    "      " +:+ q "D" +:+ ": " +:+ q "Option D text";
    "    },";
    "    " +:+ q "correct_answer" +:+ ": " +:+ q "B" +:+ ",";
    "    " +:+ q "explanation" +:+ ": "
      +:+ q "Brief explanation of why B is correct";
    "  }";
    "]";
    "";
    "Generate the MCQs now:" ].

Definition viva_prompt (num_questions : Z) (context : string) : string :=
  lines [
    "Generate " +:+ pretty num_questions
      +:+ " viva (oral examination) questions from the content.";
    "";
    "Viva questions should:";
    "- Test conceptual understanding";
    "- Be brief and direct";
    "- Allow for elaborate verbal answers";
    "- Cover fundamental and advanced concepts";
    "- Include some " +:+ q "why" +:+ " and " +:+ q "how" +:+ " questions";
    "";
    "Content:";
    context;
    "";
    "Generate questions in this JSON format:";
    "[";
    "  {";
    "    " +:+ q "question_number" +:+ ": 1,";
    "    " +:+ q "question" +:+ ": "
      +:+ q "Explain the significance of..." +:+ ",";
    "    " +:+ q "type" +:+ ": "
      +:+ q "conceptual/definition/comparison/application" +:+ ",";
    "    " +:+ q "key_points" +:+ ": [" +:+ q "Point 1 expected in answer"
      +:+ ", " +:+ q "Point 2" +:+ ", " +:+ q "Point 3" +:+ "],";
    "    " +:+ q "difficulty" +:+ ": " +:+ q "easy/medium/hard";
    "  }";
    "]";
    "";
    "Generate the viva questions now:" ].

(** [_parse_json_response]: only [json.JSONDecodeError] is caught. *)
Definition _parse_json_response (response : string) : result value :=
  let start := find "[" response in
  let end_ := rfind "]" response + 1 in
  if negb (start =? -1) && (start <? end_) then
    match json_loads (slice response start end_) with
    | Ok v => Ok v
    | Raise JSONDecodeError => Ok (VList [])
    | Raise e => Raise e
    end
  else Ok (VList []).

Definition _generate_fallback_assignment (context : string) (num_questions : Z)
  : value :=
  VList ((λ i,
    VDict [
      ("question_number", VInt (i + 1));
      ("question", VStr ("Question " +:+ pretty (i + 1)
         +:+ ": Based on the provided content, explain [topic] with relevant examples."));
      ("type", VStr (if i mod 2 =? 0 then "theory" else "analytical"));
      ("marks", VInt 5);
      ("marking_scheme", VStr "Refer to content for detailed marking");
      ("sample_answer",
         VStr "Answer should cover key concepts from the provided material")
    ]) <$> range num_questions).

Definition _generate_fallback_mcqs (context : string) (num_questions : Z)
  : value :=
  VList ((λ i,
    VDict [
      ("question_number", VInt (i + 1));
      ("question", VStr ("Question " +:+ pretty (i + 1) +:+ " from content"));
      ("options", VDict [("A", VStr "A"); ("B", VStr "B");
                         ("C", VStr "C"); ("D", VStr "D")]);
      ("correct_answer", VStr "A");
      ("explanation", VStr "Refer to content for explanation")
    ]) <$> range num_questions).

Definition _generate_fallback_viva (context : string) (num_questions : Z)
  : value :=
  VList ((λ i,
    VDict [
      ("question_number", VInt (i + 1));
      ("question", VStr "Explain a key concept from the provided content.");
      ("type", VStr "conceptual");
      ("key_points", VList [VStr "Point 1"; VStr "Point 2"]);
      ("difficulty", VStr "medium")
    ]) <$> range num_questions).

(** The three generators.  Log records are not part of the model, but the
    evaluation of their arguments is: [len(questions)] raises on an object
    without a length.  The handler of each [try] logs and re-raises. *)
Definition generate_assignment
    (context : string) (num_questions : Z) (difficulty : string)
  : M (list call) value :=
  try_except
    (result ← chain_ainvoke
       [HumanMessage
          (assignment_prompt num_questions difficulty (slice context 0 4000))];
     questions ← lift (_parse_json_response result);
     let questions :=
       if negb (truthy questions)
       then _generate_fallback_assignment context num_questions
       else questions in
     _ ← lift (len questions);
     mret questions)
    (λ e, raise e).

Definition generate_mcqs
    (context : string) (num_questions : Z) (difficulty : string)
  : M (list call) value :=
  try_except
    (result ← chain_ainvoke
       [HumanMessage
          (mcq_prompt num_questions difficulty (slice context 0 4000))];
     questions ← lift (_parse_json_response result);
     let questions :=
       if negb (truthy questions)
       then _generate_fallback_mcqs context num_questions
       else questions in
     _ ← lift (len questions);
     mret questions)
    (λ e, raise e).

Definition generate_viva_questions (context : string) (num_questions : Z)
  : M (list call) value :=
  try_except
    (result ← chain_ainvoke
       [HumanMessage (viva_prompt num_questions (slice context 0 4000))];
     questions ← lift (_parse_json_response result);
     let questions :=
       if negb (truthy questions)
       then _generate_fallback_viva context num_questions
       else questions in
     _ ← lift (len questions);
     mret questions)
    (λ e, raise e).

End QuestionGenerator.

(** * Conversational RAG engine ([services/rag_engine.py]) *)

(** The engine object: [self.store], the chat history of every session seen
    so far, and the ghost log of provider calls. *)
Record RAGEngine := {
  store : gmap string (list message);
  log : list call
}.

(** The dictionary that flows through the chain, and the one it returns. *)
Record chain_input := { input : string; chat_history : list message }.

Record response_dict := {
  rd_input : string;
  rd_chat_history : list message;
  rd_context : list Document;
  rd_answer : string
}.

(** What [answer_query] returns. *)
Record query_result := {
  answer : string;
  sources : list string;
  mode : string
}.

Section RAGEngine.
Context `{LanguageModel} `{VectorStore} `{PyRuntime}.

Definition record (c : call) (self : RAGEngine) : RAGEngine :=
  {| store := store self; log := log self ++ [c] |}.

Definition llm (prompt : list message) : M RAGEngine string :=
  λ self, (record (LLMInvoke prompt) self, llm_invoke prompt).

Definition retriever (query : string) : M RAGEngine (list Document) :=
  λ self, (record (RetrieverInvoke query) self, retriever_invoke query).

Definition _collection_get : M RAGEngine GetResult :=
  λ self, (record CollectionGet self, collection_get).

(** *** [_create_conversational_rag_chain] *)

Definition contextualize_q_system_prompt : string :=
  "Given a chat history and the latest user question "
  +:+ "which might reference context in the chat history, "
  +:+ "formulate a standalone question which can be understood "
  +:+ "without the chat history. Do NOT answer the question, "
  +:+ "just reformulate it if needed and otherwise return it as is.".

Definition contextualize_q_prompt (d : chain_input) : list message :=
  [SystemMessage contextualize_q_system_prompt]
  ++ chat_history d
  ++ [HumanMessage (input d)].

Definition history_aware_query_chain (d : chain_input) : M RAGEngine string :=
  llm (contextualize_q_prompt d).

Definition system_prompt (context : string) : string :=
  "You are an assistant for question-answering tasks. "
  +:+ "Use the following pieces of retrieved context to answer "
  +:+ "the question. If you don't know the answer, say that you "
  +:+ "don't know. Use three sentences maximum and keep the "
  +:+ "answer concise."
  +:+ nl +:+ nl
  +:+ context.

Definition qa_prompt (d : chain_input) (context : list Document)
  : list message :=
  [SystemMessage (system_prompt (str_of_docs context))]
  ++ chat_history d
  ++ [HumanMessage (input d)].

Definition question_answer_chain (d : chain_input) (context : list Document)
  : M RAGEngine string :=
  llm (qa_prompt d context).

Definition get_docs (input_dict : chain_input) : M RAGEngine (list Document) :=
  query ← history_aware_query_chain input_dict;
  retriever query.

(** [RunnablePassthrough.assign(context=get_docs).assign(answer=...)] *)
Definition rag_chain (input_dict : chain_input) : M RAGEngine response_dict :=
  context ← get_docs input_dict;
  answer ← question_answer_chain input_dict context;
  mret {| rd_input := input input_dict;
          rd_chat_history := chat_history input_dict;
          rd_context := context;
          rd_answer := answer |}.

(** *** Session histories *)

(** A history object lives in [self.store] and is shared by reference; it
    is denoted by its key.  [get_session_history] returns that
    reference, after creating the history when the session is new. *)
Definition get_session_history (session_id : string) : M RAGEngine string :=
  λ self,
    match store self !! session_id with
    | None =>
        ({| store := <[session_id := []]> (store self); log := log self |},
         Ok session_id)
    | Some _ => (self, Ok session_id)
    end.

(** [history.messages] *)
Definition messages (history : string) : M RAGEngine (list message) :=
  λ self, (self, Ok (default [] (store self !! history))).

(** [history.add_messages(ms)] *)
Definition add_messages (history : string) (ms : list message)
  : M RAGEngine unit :=
  λ self,
    ({| store := <[history := default [] (store self !! history) ++ ms]>
                   (store self);
        log := log self |},
     Ok tt).

(** [RunnableWithMessageHistory(rag_chain, self.get_session_history,
    input_messages_key="input", history_messages_key="chat_history",
    output_messages_key="answer").invoke({"input": query}, config)]:
    the wrapper of the LangChain library loads the messages of the
    session's history under ["chat_history"], runs the chain, and when the
    chain has returned appends the input as a human message and the
    ["answer"] of the output as an AI message. *)
Definition conversational_rag_chain (query session_id : string)
  : M RAGEngine response_dict :=
  history ← get_session_history session_id;
  past ← messages history;
  output ← rag_chain {| input := query; chat_history := past |};
  _ ← add_messages history [HumanMessage query; AIMessage (rd_answer output)];
  mret output.

(** *** [answer_query] *)

(** [doc.metadata.get("source", "Unknown")] *)
Definition source_of (doc : Document) : string :=
  default "Unknown" (metadata doc !! "source").

(** The keys ["context"] and ["answer"] are always present in the
    dictionary the chain returns, so ['context' in response_dict] holds and
    [.get("answer", ...)] never takes its default. *)
Definition answer_query (query session_id : string)
  : M RAGEngine query_result :=
  try_except
    (response ← conversational_rag_chain query session_id;
     let sources :=
       match rd_context response with
       | [] => []
       | _ => list_of_set (source_of <$> rd_context response)
       end in
     mret {| answer := rd_answer response;
             sources := sources;
             mode := "qa" |})
    (λ e, raise e).

(** *** [get_documents_context] *)

(** [metadata and metadata.get('doc_id') in document_ids] *)
Definition selected (document_ids : list string)
    (metadata : option (gmap string string)) : bool :=
  match metadata with
  | None => false
  | Some m =>
      negb (bool_decide (m = ∅))
      && match m !! "doc_id" with
         | Some d => bool_decide (d ∈ document_ids)
         | None => false
         end
  end.

(** The filtering loop, from index [i] on; [all_data['documents'][i]]
    raises when the index is out of range. *)
Fixpoint filter_chunks (docs : list string) (document_ids : list string)
    (i : nat) (metas : list (option (gmap string string)))
    (all_chunks : list string) : result (list string) :=
  match metas with
  | [] => Ok all_chunks
  | metadata :: rest =>
      if selected document_ids metadata then
        match docs !! i with
        | Some d =>
            filter_chunks docs document_ids (S i) rest (all_chunks ++ [d])
        | None => Raise IndexError
        end
      else filter_chunks docs document_ids (S i) rest all_chunks
  end.

Definition get_documents_context (document_ids : list string)
  : M RAGEngine string :=
  try_except
    (all_data ← _collection_get;
     match documents all_data with
     | [] => mret ""
     | _ =>
         all_chunks ← lift (filter_chunks (documents all_data) document_ids
                              O (metadatas all_data) []);
         mret (String.concat (nl +:+ nl) (take 20 all_chunks))
     end)
    (λ e, mret "").

End RAGEngine.

(** * Test doubles

    Small implementations of the interfaces, used to run the services on
    concrete inputs. *)

(** A model that replies [reply] to every prompt. *)
Definition stub_llm (reply : string) : LanguageModel :=
  {| llm_invoke := λ _, Ok reply |}.

(** A model that returns the last message of the prompt behind a marker, so
    that its output is never the text it was given. *)
Definition rewriting_llm : LanguageModel :=
  {| llm_invoke := λ prompt,
       match last prompt with
       | Some m => Ok ("standalone: " +:+ content m)
       | None => Ok "standalone: "
       end |}.

(** A decoder that knows the texts of [table] and rejects every other. *)
Fixpoint table_loads (table : list (string * value)) (s : string)
  : result value :=
  match table with
  | [] => Raise JSONDecodeError
  | (text, v) :: rest =>
      if String.eqb text s then Ok v else table_loads rest s
  end.

Program Definition stub_runtime (table : list (string * value)) : PyRuntime :=
  {| json_loads := table_loads table;
     list_of_set := remove_dups;
     str_of_docs := λ docs, String.concat nl (page_content <$> docs) |}.
Next Obligation. intros _ l. apply NoDup_remove_dups. Qed.
Next Obligation. intros _ l x. apply elem_of_remove_dups. Qed.

(** A store whose retriever returns [docs] for every query and whose scan
    returns [scan]. *)
Definition stub_store (docs : list Document) (scan : result GetResult)
  : VectorStore :=
  {| retriever_invoke := λ _, Ok docs; collection_get := scan |}.

Definition chunk (text : string) (meta : list (string * string)) : Document :=
  {| page_content := text; metadata := list_to_map meta |}.

Definition empty_engine : RAGEngine := {| store := ∅; log := [] |}.

(** Fixtures. *)

Definition refusing_llm : LanguageModel :=
  stub_llm "I am sorry, I cannot produce questions for this content.".

(** One assignment question, as JSON text and as the object it decodes
    to. *)
Definition question_text (number marks : Z)
    (question kind scheme sample : string) : string :=
  "{" +:+ q "question_number" +:+ ": " +:+ pretty number
  +:+ ", " +:+ q "question" +:+ ": " +:+ q question
  +:+ ", " +:+ q "type" +:+ ": " +:+ q kind
  +:+ ", " +:+ q "marks" +:+ ": " +:+ pretty marks
  +:+ ", " +:+ q "marking_scheme" +:+ ": " +:+ q scheme
  +:+ ", " +:+ q "sample_answer" +:+ ": " +:+ q sample +:+ "}".

Definition question_item (number marks : Z)
    (question kind scheme sample : string) : value :=
  VDict [("question_number", VInt number); ("question", VStr question);
         ("type", VStr kind); ("marks", VInt marks);
         ("marking_scheme", VStr scheme); ("sample_answer", VStr sample)].

Definition sample_array_text : string :=
  "["
  +:+ question_text 1 2 "Define osmosis." "theory"
        "Definition (2 marks)" "Movement of water across a membrane"
  +:+ ", "
  +:+ question_text 2 5 "Compare osmosis and diffusion." "analytical"
        "Similarities (2 marks), differences (3 marks)"
        "Both are passive; osmosis concerns water only"
  +:+ "]".

Definition sample_items : list value :=
  [ question_item 1 2 "Define osmosis." "theory"
      "Definition (2 marks)" "Movement of water across a membrane";
    question_item 2 5 "Compare osmosis and diffusion." "analytical"
      "Similarities (2 marks), differences (3 marks)"
      "Both are passive; osmosis concerns water only" ].

Definition sample_runtime : PyRuntime :=
  stub_runtime [(sample_array_text, VList sample_items); ("[]", VList [])].

Definition chatty_llm : LanguageModel :=
  stub_llm ("Here is the assignment:" +:+ nl +:+ sample_array_text
            +:+ nl +:+ "Good luck!").

(** A context of 4000 characters followed by [tail]. *)
Definition long_context (tail : string) : string :=
  String.concat "" (replicate 4000 "a") +:+ tail.

(** * Vocabulary of the properties *)

Global Instance result_ret : MRet result := λ A a, Ok a.

Global Instance result_bind : MBind result := λ A B f r,
  match r with
  | Ok a => f a
  | Raise e => Raise e
  end.

Section Vocabulary.
Context `{PyRuntime}.

(** The response has a first ['['] and a last [']'] that is not before
    it. *)
Definition has_brackets (response : string) : Prop :=
  find "[" response ≠ -1 ∧ find "[" response < rfind "]" response + 1.

(** The text from the first ['['] through the last [']']. *)
Definition bracket_span (response : string) : string :=
  slice response (find "[" response) (rfind "]" response + 1).

(** The condition under which [_parse_json_response] gives the empty list:
    the response has no bracket span, or [json.loads] rejects the span with
    [JSONDecodeError].  A span on which the decoder raises an exception of
    another class is not part of it. *)
Definition decode_error_or_no_span (response : string) : Prop :=
  ¬ has_brackets response
  ∨ json_loads (bracket_span response) = Raise JSONDecodeError.


(** [json.loads] accepts the span and returns [v]. *)
Definition parses_to (response : string) (v : value) : Prop :=
  has_brackets response ∧ json_loads (bracket_span response) = Ok v.

(** What a generator does with the parsed value: substitute the fallback
    for a falsy value, take [len] of the outcome, return it. *)
Definition choose (fallback v : value) : result value :=
  let questions := if negb (truthy v) then fallback else v in
  _ ← len questions; mret questions.

(** The outcome of a generator, given the model's reply. *)
Definition outcome (fallback : value) (reply : result string)
  : result value :=
  response ← reply;
  v ← _parse_json_response response;
  choose fallback v.

(** The sources of a list of retrieved chunks. *)
Definition sources_of (docs : list Document) : list string :=
  match docs with
  | [] => []
  | _ => list_of_set (source_of <$> docs)
  end.
End Vocabulary.

(** A list of [n] items, numbered 1, 2, ... in order, each satisfying [P]. *)
Definition numbered_list (n : Z) (P : value → Prop) (v : value) : Prop :=
  ∃ items, v = VList items
    ∧ Z.of_nat (length items) = n
    ∧ ∀ (i : nat) (item : value), items !! i = Some item →
        field "question_number" item = Some (VInt (Z.of_nat i + 1)) ∧ P item.

(** A placeholder MCQ: options A to D are present, the answer is "A". *)
Definition mcq_placeholder (item : value) : Prop :=
  (∀ k, k ∈ ["A"; "B"; "C"; "D"] → is_Some (field "options" item ≫= field k))
  ∧ field "correct_answer" item = Some (VStr "A").

(** The result [r] of a generator is its fallback list: the list the
    fallback generator builds for [n], whatever the context, [n] numbered
    items satisfying [P]. *)
Definition is_fallback (fallback : string → Z → value) (P : value → Prop)
    (context : string) (n : Z) (r : result value) : Prop :=
  r = Ok (fallback context n)
  ∧ (∀ context', fallback context' n = fallback context n)
  ∧ numbered_list n P (fallback context n).

(** The history of a session before a call, and the dictionary the chain
    receives for a query. *)
Definition past_of (self : RAGEngine) (session_id : string) : list message :=
  default [] (store self !! session_id).

Definition turn (self : RAGEngine) (query session_id : string) : chain_input :=
  {| input := query; chat_history := past_of self session_id |}.

(** The calls an operation made: the log after it, without the log before
    it. *)
Definition new_calls (before after : RAGEngine) : list call :=
  drop (length (log before)) (log after).

(** "The reformulation call is skipped and the query is passed unchanged to
    retrieval": no prompt of the reformulation chain for [query] was sent to
    the model, and the retriever was invoked on [query] itself. *)
Definition reformulation_skipped (query : string) (calls : list call) : Prop :=
  (∀ history,
     LLMInvoke (contextualize_q_prompt
                  {| input := query; chat_history := history |}) ∉ calls)
  ∧ RetrieverInvoke query ∈ calls.

(** The chunk's metadata has a [doc_id], and it is one of [document_ids]. *)
Definition doc_id_in (document_ids : list string)
    (metadata : option (gmap string string)) : bool :=
  match metadata ≫= (.!! "doc_id") with
  | Some d => bool_decide (d ∈ document_ids)
  | None => false
  end.

(** The texts of the chunks of the scan whose [doc_id] is in [document_ids],
    in store order. *)
Definition matching_chunks (document_ids : list string) (data : GetResult)
  : list string :=
  (filter (λ c, doc_id_in document_ids c.2 = true)
          (zip (documents data) (metadatas data))).*1.

(** Fixtures for the engine. *)

Definition lecture_chunks : list Document :=
  [ chunk "Osmosis moves water." [("doc_id", "d1"); ("source", "bio.pdf")];
    chunk "Diffusion moves solutes." [("doc_id", "d1"); ("source", "bio.pdf")];
    chunk "Handwritten note." [("doc_id", "d2")] ].

(** A scan of [k] chunks of document [doc_id], texts "c0", "c1", ... *)
Definition scan_of (doc_id : string) (k : nat) : GetResult :=
  {| documents := (λ i, "c" +:+ pretty i) <$> seq 0 k;
     metadatas := replicate k (Some (list_to_map [("doc_id", doc_id)])) |}.

Definition append_scan (a b : GetResult) : GetResult :=
  {| documents := documents a ++ documents b;
     metadatas := metadatas a ++ metadatas b |}.

Definition lecture_store : VectorStore :=
  stub_store lecture_chunks
    (Ok (append_scan (scan_of "doc1" 25) (scan_of "other" 5))).

Definition broken_store : VectorStore :=
  stub_store [] (Raise (Fault "chroma unavailable")).

(** The provider calls of the first question of a new session. *)
Definition first_question_calls : list call :=
  new_calls empty_engine
    (@answer_query rewriting_llm lecture_store sample_runtime
       "What is osmosis?" "s1" empty_engine).1.

(** * The other operations of the two services *)

(** ** Construction of the model client ([_initialize_llm]) *)

(** The keyword arguments given to [ChatGroq]; an argument that is not
    passed is [None]. *)
Record ChatGroq := {
  groq_api_key : string;
  model_name : string;
  temperature : option spec_float;
  max_tokens : option Z
}.

(** A constructor either returns the object or raises [ValueError]. *)
Inductive construction (A : Type) : Type :=
| Constructed (a : A)
| ValueError (msg : string).
Arguments Constructed {A} a.
Arguments ValueError {A} msg.

(** [os.getenv(name)] on the environment of the process. *)
Definition getenv (environ : gmap string string) (name : string)
  : option string :=
  environ !! name.

Module RAGEngineInit.
(** [RAGEngine._initialize_llm]; [not api_key] holds when the variable is
    unset or set to the empty string. *)
Definition _initialize_llm (environ : gmap string string)
  : construction ChatGroq :=
  match getenv environ "GROQ_API_KEY" with
  | Some api_key =>
      if String.eqb api_key ""
      then ValueError "GROQ_API_KEY not found in environment"
      else Constructed {| groq_api_key := api_key;
                          model_name := "openai/gpt-oss-120b";
                          temperature := None;
                          max_tokens := None |}
  | None => ValueError "GROQ_API_KEY not found in environment"
  end.
End RAGEngineInit.

Module QuestionGeneratorInit.
(** [QuestionGenerator._initialize_llm]; the temperature is 0.5. *)
Definition _initialize_llm (environ : gmap string string)
  : construction ChatGroq :=
  match getenv environ "GROQ_API_KEY" with
  | Some api_key =>
      if String.eqb api_key ""
      then ValueError "GROQ_API_KEY not found in environment"
      else Constructed {| groq_api_key := api_key;
                          model_name := "openai/gpt-oss-120b";
                          temperature := Some (S754_finite false 1 (-1));
                          max_tokens := Some 2048 |}
  | None => ValueError "GROQ_API_KEY not found in environment"
  end.
End QuestionGeneratorInit.

(** ** Health checks and deletion *)

(** The calls of the maintenance operations to the vector store, and their
    ghost log. *)
Inductive store_call : Type :=
| CollectionCount
| VectorstoreGet (doc_id : string)
| VectorstoreDelete (ids : list string).

(** What [vectorstore.get(where={"doc_id": doc_id})] returns, as far as
    [delete_document] reads it: the dictionary always has its keys, so it is
    truthy, and ["ids"] is the list of the IDs of the matching chunks. *)
Record WhereResult := { ids : list string }.

Class VectorStoreAdmin := {
  collection_count : result Z;
  vectorstore_get : string → result WhereResult;
  vectorstore_delete : list string → result unit
}.

Section Maintenance.
Context `{LanguageModel} `{VectorStoreAdmin}.

Definition _collection_count : M (list store_call) Z :=
  λ log, (log ++ [CollectionCount], collection_count).

Definition _vectorstore_get (doc_id : string)
  : M (list store_call) WhereResult :=
  λ log, (log ++ [VectorstoreGet doc_id], vectorstore_get doc_id).

Definition _vectorstore_delete (ids : list string) : M (list store_call) unit :=
  λ log, (log ++ [VectorstoreDelete ids], vectorstore_delete ids).

(** [check_vectorstore] *)
Definition check_vectorstore : M (list store_call) string :=
  try_except
    (count ← _collection_count;
     mret ("operational (" +:+ pretty count +:+ " chunks)"))
    (λ e, mret "unavailable").

(** [check_llm]: [self.llm.invoke("Hello")] sends the one human message
    "Hello"; the reply is dropped. *)
Definition check_llm : M RAGEngine string :=
  try_except
    (_ ← llm [HumanMessage "Hello"];
     mret "operational")
    (λ e, mret "unavailable").

(** [delete_document]: the handler logs and re-raises. *)
Definition delete_document (doc_id : string) : M (list store_call) unit :=
  try_except
    (results ← _vectorstore_get doc_id;
     match ids results with
     | [] => mret tt
     | _ => _vectorstore_delete (ids results)
     end)
    (λ e, raise e).

End Maintenance.

(** ** More test doubles *)

(** A model whose transport is down. *)
Definition failing_llm : LanguageModel :=
  {| llm_invoke := λ _, Raise (Fault "connection refused") |}.

(** A runtime whose decoder gives up on every text with an exception that
    is not [JSONDecodeError]. *)
Program Definition overflowing_runtime : PyRuntime :=
  {| json_loads := λ _, Raise (Fault "maximum recursion depth exceeded");
     list_of_set := remove_dups;
     str_of_docs := λ docs, String.concat nl (page_content <$> docs) |}.
Next Obligation. intros l. apply NoDup_remove_dups. Qed.
Next Obligation. intros l x. apply elem_of_remove_dups. Qed.




(** A store with [k] chunks, [matching] of them of the document asked for;
    deleting fails when [locked]. *)
Definition admin_store (k : Z) (matching : list string) (locked : bool)
  : VectorStoreAdmin :=
  {| collection_count := Ok k;
     vectorstore_get := λ _, Ok {| ids := matching |};
     vectorstore_delete := λ _,
       if locked then Raise (Fault "database is locked") else Ok tt |}.

Definition unreachable_store : VectorStoreAdmin :=
  {| collection_count := Raise (Fault "chroma unavailable");
     vectorstore_get := λ _, Raise (Fault "chroma unavailable");
     vectorstore_delete := λ _, Raise (Fault "chroma unavailable") |}.

(** An engine in which session "s1" already has one exchange. *)
Definition engine_with_history : RAGEngine :=
  {| store := {[ "s1" := [HumanMessage "What is osmosis?";
                          AIMessage "Movement of water."] ]};
     log := [] |}.

(** A scan with one document and two metadata entries. *)
Definition ragged_scan : GetResult :=
  {| documents := ["c0"];
     metadatas := [Some (list_to_map [("doc_id", "doc1")]);
                   Some (list_to_map [("doc_id", "doc1")])] |}.

(** * Properties of the string operations *)

Lemma length_append (s t : string) :
  String.length (s +:+ t) = (String.length s + String.length t)%nat.
Proof. induction s as [|a s IH]; simpl; [done | by rewrite IH]. Qed.

Lemma find_range (c : ascii) (s : string) :
  find c s = -1 ∨ 0 ≤ find c s < Z.of_nat (String.length s).
Proof.
  induction s as [|a s IH]; simpl; [by left |].
  destruct (Ascii.eqb a c); [right; lia |].
  destruct (Z.eqb_spec (find c s) (-1)); [by left | right; lia].
Qed.

Lemma rfind_range (c : ascii) (s : string) :
  rfind c s = -1 ∨ 0 ≤ rfind c s < Z.of_nat (String.length s).
Proof.
  induction s as [|a s IH]; simpl; [by left |].
  destruct (Z.eqb_spec (rfind c s) (-1)).
  - destruct (Ascii.eqb a c); [right; lia | by left].
  - right; lia.
Qed.

(** The first occurrence: nothing before it. *)
Lemma find_app (c : ascii) (pre rest : string) :
  find c pre = -1 →
  find c (pre +:+ String c rest) = Z.of_nat (String.length pre).
Proof.
  induction pre as [|a pre IH]; simpl.
  - intros _. by rewrite Ascii.eqb_refl.
  - destruct (Ascii.eqb a c); [done |].
    destruct (Z.eqb_spec (find c pre) (-1)) as [E|E];
      [| intros; destruct (find_range c pre); lia].
    intros _. rewrite (IH E).
    destruct (Z.eqb_spec (Z.of_nat (String.length pre)) (-1)); lia.
Qed.

(** The last occurrence: nothing after it. *)
Lemma rfind_app (c : ascii) (s post : string) :
  rfind c post = -1 →
  rfind c (s +:+ String c post) = Z.of_nat (String.length s).
Proof.
  intros Hpost. induction s as [|a s IH]; simpl.
  - by rewrite Hpost, Ascii.eqb_refl.
  - rewrite IH.
    destruct (Z.eqb_spec (Z.of_nat (String.length s)) (-1)); lia.
Qed.

Lemma substring_0_app (s t : string) :
  substring 0 (String.length s) (s +:+ t) = s.
Proof. induction s as [|a s IH]; simpl; [by destruct t | by rewrite IH]. Qed.

Lemma substring_skip (pre s : string) (n : nat) :
  substring (String.length pre) n (pre +:+ s) = substring 0 n s.
Proof. induction pre as [|a pre IH]; simpl; done. Qed.

(** Slicing out the middle of a three-part text. *)
Lemma slice_middle (pre mid post : string) :
  slice (pre +:+ mid +:+ post)
        (Z.of_nat (String.length pre))
        (Z.of_nat (String.length pre) + Z.of_nat (String.length mid))
  = mid.
Proof.
  unfold slice. rewrite !length_append.
  destruct (Z.ltb_spec (Z.of_nat (String.length pre)) 0); [lia |].
  destruct (Z.ltb_spec (Z.of_nat (String.length pre)
                        + Z.of_nat (String.length mid)) 0); [lia |].
  rewrite !Z.min_l by lia.
  replace (Z.to_nat (_ + _ - _)) with (String.length mid) by lia.
  rewrite Nat2Z.id, substring_skip. apply substring_0_app.
Qed.

Lemma append_cons (a : ascii) (s t : string) :
  String a s +:+ t = String a (s +:+ t).
Proof. reflexivity. Qed.

Lemma append_assoc (s t u : string) : (s +:+ t) +:+ u = s +:+ t +:+ u.
Proof.
  induction s as [|a s IH]; [done |]. by rewrite !append_cons, IH.
Qed.

(** A prefix of [k] characters, or the whole text when it is shorter. *)
Lemma substring_0_prefix (k : nat) (s : string) :
  ∃ rest, s = substring 0 k s +:+ rest
    ∧ String.length (substring 0 k s) = Nat.min k (String.length s).
Proof.
  revert k. induction s as [|a s IH]; intros [|k]; simpl; eauto.
  destruct (IH k) as (rest & Hs & Hl). exists rest.
  split; [by rewrite append_cons, <- Hs | by rewrite Hl].
Qed.

(** [s[:n]] is the first [n] characters of [s]. *)
Lemma slice_prefix (s : string) (n : Z) :
  0 ≤ n →
  ∃ rest, s = slice s 0 n +:+ rest
    ∧ String.length (slice s 0 n) = Nat.min (Z.to_nat n) (String.length s).
Proof.
  intros Hn. unfold slice. simpl.
  destruct (Z.ltb_spec n 0); [lia |].
  rewrite Z.min_l by lia. simpl. rewrite Z.sub_0_r.
  destruct (substring_0_prefix
              (Z.to_nat (Z.min n (Z.of_nat (String.length s)))) s)
    as (rest & Hs & Hl).
  change (Z.to_nat 0) with O.
  exists rest. split; [done |]. rewrite Hl. lia.
Qed.

Lemma length_range (n : Z) : length (range n) = Z.to_nat n.
Proof. unfold range. by rewrite length_fmap, length_seq. Qed.

Lemma lookup_range (n : Z) (i : nat) (x : Z) :
  range n !! i = Some x → x = Z.of_nat i.
Proof.
  unfold range. rewrite list_lookup_fmap.
  destruct (seq 0 (Z.to_nat n) !! i) as [k|] eqn:E; [| done].
  apply lookup_seq in E as [-> _]. simpl. by intros [= <-].
Qed.

(** * Properties of the question generator *)

Section QuestionGeneratorProperties.
Context `{LanguageModel} `{PyRuntime}.

Lemma parse_decode_error_or_no_span (response : string) :
  decode_error_or_no_span response →
  _parse_json_response response = Ok (VList []).
Proof.
  unfold decode_error_or_no_span, has_brackets, bracket_span,
    _parse_json_response.
  intros [Hno | Hbad].
  - destruct (Z.eqb_spec (find "[" response) (-1)); simpl; [done |].
    destruct (Z.ltb_spec (find "[" response) (rfind "]" response + 1));
      [| done].
    exfalso. apply Hno. done.
  - rewrite Hbad. by destruct (negb _ && _).
Qed.

Lemma parse_parses_to (response : string) (v : value) :
  parses_to response v → _parse_json_response response = Ok v.
Proof.
  unfold parses_to, has_brackets, bracket_span, _parse_json_response.
  intros [[Hs Hlt] Hv]. rewrite Hv.
  destruct (Z.eqb_spec (find "[" response) (-1)); [done |].
  destruct (Z.ltb_spec (find "[" response) (rfind "]" response + 1));
    [done | lia].
Qed.

(** Unfold the body of a generator and follow the reply of the model and
    the parse of that reply. *)
Ltac run_generator prompt :=
  unfold try_except, raise, chain_ainvoke, lift, outcome, choose;
  unfold mbind, M_bind, result_bind, mret, M_ret, result_ret;
  fold prompt;
  destruct (llm_invoke prompt) as [?|?]; [| done];
  destruct (_parse_json_response _) as [?|?]; [| done];
  destruct (len _); done.

(** Each generator calls the model once, with the prompt built from the
    truncated context, and its result is [outcome] of the reply. *)
Lemma generate_assignment_run context n difficulty (log : list call) :
  let prompt := [HumanMessage
    (assignment_prompt n difficulty (slice context 0 4000))] in
  generate_assignment context n difficulty log
  = (log ++ [LLMInvoke prompt],
     outcome (_generate_fallback_assignment context n) (llm_invoke prompt)).
Proof. intros prompt. unfold generate_assignment. by run_generator prompt. Qed.

Lemma generate_mcqs_run context n difficulty (log : list call) :
  let prompt := [HumanMessage
    (mcq_prompt n difficulty (slice context 0 4000))] in
  generate_mcqs context n difficulty log
  = (log ++ [LLMInvoke prompt],
     outcome (_generate_fallback_mcqs context n) (llm_invoke prompt)).
Proof. intros prompt. unfold generate_mcqs. by run_generator prompt. Qed.

Lemma generate_viva_questions_run context n (log : list call) :
  let prompt := [HumanMessage (viva_prompt n (slice context 0 4000))] in
  generate_viva_questions context n log
  = (log ++ [LLMInvoke prompt],
     outcome (_generate_fallback_viva context n) (llm_invoke prompt)).
Proof. intros prompt. unfold generate_viva_questions. by run_generator prompt. Qed.

(** *** The fallback lists *)

Lemma numbered_list_fmap (n : Z) (P : value → Prop) (f : Z → value) :
  0 ≤ n →
  (∀ i, 0 ≤ i →
     field "question_number" (f i) = Some (VInt (i + 1)) ∧ P (f i)) →
  numbered_list n P (VList (f <$> range n)).
Proof.
  intros Hn Hf. exists (f <$> range n). split; [done |]. split.
  - rewrite length_fmap, length_range. lia.
  - intros i item. rewrite list_lookup_fmap.
    destruct (range n !! i) as [x|] eqn:E; [| done].
    apply lookup_range in E as ->. intros [= <-]. apply Hf. lia.
Qed.

Lemma fallback_assignment_numbered (context : string) (n : Z) :
  0 ≤ n →
  numbered_list n (λ _, True) (_generate_fallback_assignment context n).
Proof. intros Hn. by apply numbered_list_fmap. Qed.

Lemma fallback_mcqs_numbered (context : string) (n : Z) :
  0 ≤ n →
  numbered_list n mcq_placeholder (_generate_fallback_mcqs context n).
Proof.
  intros Hn. apply numbered_list_fmap; [done |].
  intros i _. split; [done |]. split; [| done].
  intros k Hk. repeat (apply elem_of_cons in Hk as [-> | Hk]; [by eexists |]).
  by apply elem_of_nil in Hk.
Qed.

Lemma fallback_viva_numbered (context : string) (n : Z) :
  0 ≤ n →
  numbered_list n (λ _, True) (_generate_fallback_viva context n).
Proof. intros Hn. by apply numbered_list_fmap. Qed.

Lemma numbered_list_nonempty (n : Z) (P : value → Prop) (v : value) :
  1 ≤ n → numbered_list n P v → v ≠ VList [].
Proof. intros Hn (items & -> & Hlen & _) [= ->]. simpl in Hlen. lia. Qed.

(** *** What [choose] returns *)

Lemma choose_falsy (fallback v : value) (n : Z) (P : value → Prop) :
  truthy v = false → numbered_list n P fallback →
  choose fallback v = Ok fallback.
Proof. intros Hv (items & -> & _). unfold choose. by rewrite Hv. Qed.

Lemma choose_list (fallback : value) (items : list value) :
  items ≠ [] → choose fallback (VList items) = Ok (VList items).
Proof. intros Hne. unfold choose. by destruct items. Qed.

Lemma choose_not_empty (fallback v w : value) :
  fallback ≠ VList [] → choose fallback v = Ok w → w ≠ VList [].
Proof.
  unfold choose. intros Hf. destruct (truthy v) eqn:Hv; simpl.
  - destruct (len v); [| done]. intros [= <-] ->. done.
  - destruct (len fallback); [| done]. by intros [= <-].
Qed.

Lemma outcome_falsy (fallback : string → Z → value) (P : value → Prop)
    (context response : string) (n : Z) (v : value) :
  0 ≤ n →
  _parse_json_response response = Ok v → truthy v = false →
  (∀ context', fallback context' n = fallback context n) →
  numbered_list n P (fallback context n) →
  is_fallback fallback P context n
    (outcome (fallback context n) (Ok response)).
Proof.
  intros Hn Hparse Hv Hctx Hnum. split; [| done].
  unfold outcome. simpl. unfold mbind, result_bind. rewrite Hparse.
  by eapply choose_falsy.
Qed.

(** A reply with a JSON array between a bracket-free lead and a
    bracket-free tail: the span is that array. *)
Lemma embedded_array_parses (pre body post : string) (v : value) :
  find "[" pre = -1 → rfind "]" post = -1 →
  json_loads ("[" +:+ body +:+ "]") = Ok v →
  parses_to (pre +:+ "[" +:+ body +:+ "]" +:+ post) v.
Proof.
  intros Hpre Hpost Hloads.
  assert (Hfind : find "[" (pre +:+ "[" +:+ body +:+ "]" +:+ post)
                  = Z.of_nat (String.length pre))
    by (by apply (find_app "[" pre (body +:+ "]" +:+ post))).
  assert (Hrfind : rfind "]" (pre +:+ "[" +:+ body +:+ "]" +:+ post)
                   = Z.of_nat (String.length (pre +:+ "[" +:+ body))).
  { rewrite <- (rfind_app "]" (pre +:+ "[" +:+ body) post Hpost).
    f_equal. by rewrite !append_assoc. }
  unfold parses_to, has_brackets, bracket_span.
  rewrite Hfind, Hrfind, !length_append. simpl String.length.
  split; [lia |].
  replace (pre +:+ "[" +:+ body +:+ "]" +:+ post)
    with (pre +:+ ("[" +:+ body +:+ "]") +:+ post)
    by (by rewrite !append_assoc).
  replace (Z.of_nat (String.length pre + (1 + String.length body))%nat + 1)
    with (Z.of_nat (String.length pre)
          + Z.of_nat (String.length ("[" +:+ body +:+ "]")))
    by (rewrite !length_append; simpl String.length; lia).
  by rewrite slice_middle.
Qed.

End QuestionGeneratorProperties.

Section QuestionGeneratorTheorems.
Context `{LanguageModel} `{PyRuntime}.


(** C7.  When the model's reply contains a valid JSON array of
    [num_questions] items, spanning the first ['['] through the last [']']
    of the reply, [generate_assignment] returns exactly those items,
    unmodified and in their original order. *)
Theorem valid_array_returned_unmodified
    (context difficulty pre body post : string) (items : list value)
    (n : Z) (log : list call) :
  find "[" pre = -1 →
  rfind "]" post = -1 →
  json_loads ("[" +:+ body +:+ "]") = Ok (VList items) →
  Z.of_nat (length items) = n →
  llm_invoke [HumanMessage
    (assignment_prompt n difficulty (slice context 0 4000))]
    = Ok (pre +:+ "[" +:+ body +:+ "]" +:+ post) →
  (generate_assignment context n difficulty log).2 = Ok (VList items).
Proof.
  intros Hpre Hpost Hloads Hlen Hreply.
  rewrite generate_assignment_run. simpl. rewrite Hreply.
  unfold outcome. simpl. unfold mbind, result_bind.
  rewrite (parse_parses_to _ (VList items))
    by (by apply embedded_array_parses).
  destruct items as [|item items].
  - simpl in Hlen. by subst n.
  - by apply choose_list.
Qed.

(** C8.  Each generator sends the model one prompt, built from
    [context[:4000]], the first 4000 characters of the context (all of it
    when it is shorter); two contexts that agree on their first 4000
    characters give, for the same [num_questions], difficulty and model, the
    same prompt and the same result. *)
Theorem context_beyond_4000_is_ignored
    (context1 context2 difficulty : string) (n : Z) (log : list call) :
  slice context1 0 4000 = slice context2 0 4000 →
  (∃ rest, context1 = slice context1 0 4000 +:+ rest
     ∧ String.length (slice context1 0 4000)
       = Nat.min (Z.to_nat 4000) (String.length context1))
  ∧ ((generate_assignment context1 n difficulty log).1
       = log ++ [LLMInvoke [HumanMessage
           (assignment_prompt n difficulty (slice context1 0 4000))]]
     ∧ generate_assignment context1 n difficulty log
       = generate_assignment context2 n difficulty log)
  ∧ ((generate_mcqs context1 n difficulty log).1
       = log ++ [LLMInvoke [HumanMessage
           (mcq_prompt n difficulty (slice context1 0 4000))]]
     ∧ generate_mcqs context1 n difficulty log
       = generate_mcqs context2 n difficulty log)
  ∧ ((generate_viva_questions context1 n log).1
       = log ++ [LLMInvoke [HumanMessage
           (viva_prompt n (slice context1 0 4000))]]
     ∧ generate_viva_questions context1 n log
       = generate_viva_questions context2 n log).
Proof.
  intros Hsame. split; [by apply slice_prefix |].
  rewrite !generate_assignment_run, !generate_mcqs_run,
    !generate_viva_questions_run.
  simpl. by rewrite Hsame.
Qed.

(** C10.  For [num_questions >= 1] no generator returns an empty list; in
    particular, when the reply parses to a valid but empty JSON array the
    fallback list is substituted, the same list as for a reply that cannot
    be parsed. *)
Theorem generators_never_return_empty_list
    (context difficulty : string) (n : Z) (log : list call) :
  1 ≤ n →
  (∀ v, (generate_assignment context n difficulty log).2 = Ok v →
        v ≠ VList [])
  ∧ (∀ v, (generate_mcqs context n difficulty log).2 = Ok v → v ≠ VList [])
  ∧ (∀ v, (generate_viva_questions context n log).2 = Ok v → v ≠ VList [])
  ∧ ∀ response, parses_to response (VList []) →
      (llm_invoke [HumanMessage
          (assignment_prompt n difficulty (slice context 0 4000))]
         = Ok response →
       is_fallback _generate_fallback_assignment (λ _, True) context n
         (generate_assignment context n difficulty log).2)
      ∧ (llm_invoke [HumanMessage
          (mcq_prompt n difficulty (slice context 0 4000))] = Ok response →
         is_fallback _generate_fallback_mcqs mcq_placeholder context n
           (generate_mcqs context n difficulty log).2)
      ∧ (llm_invoke [HumanMessage
          (viva_prompt n (slice context 0 4000))] = Ok response →
         is_fallback _generate_fallback_viva (λ _, True) context n
           (generate_viva_questions context n log).2).
Proof.
  intros Hn.
  pose proof (fallback_assignment_numbered context n ltac:(lia)) as Ha.
  pose proof (fallback_mcqs_numbered context n ltac:(lia)) as Hm.
  pose proof (fallback_viva_numbered context n ltac:(lia)) as Hv.
  rewrite generate_assignment_run, generate_mcqs_run,
    generate_viva_questions_run. simpl.
  assert (Hout : ∀ fallback P reply v,
    numbered_list n P fallback → outcome fallback reply = Ok v →
    v ≠ VList []).
  { intros fallback P [r|e] v Hnum; [| done].
    unfold outcome. simpl. unfold mbind, result_bind.
    destruct (_parse_json_response r); [| done].
    apply choose_not_empty. by eapply numbered_list_nonempty. }
  split; [by eauto |]. split; [by eauto |]. split; [by eauto |].
  intros response Hparse. apply parse_parses_to in Hparse.
  split; [| split]; intros Hreply; rewrite Hreply;
    (apply (outcome_falsy _ _ _ _ _ (VList [])); [lia | done..]).
Qed.

End QuestionGeneratorTheorems.



Lemma valid_array_returned_unmodified_witness :
  (@generate_assignment chatty_llm sample_runtime
     "Osmosis is the movement of water." 2 "easy" []).2
  = Ok (VList sample_items).
Proof.
  apply (@valid_array_returned_unmodified chatty_llm sample_runtime
           "Osmosis is the movement of water." "easy"
           ("Here is the assignment:" +:+ nl)
           (substring 1 (String.length sample_array_text - 2) sample_array_text)
           (nl +:+ "Good luck!") sample_items 2 []).
  - vm_compute. reflexivity.
  - vm_compute. reflexivity.
  - vm_compute. reflexivity.
  - reflexivity.
  - vm_compute. reflexivity.
Defined.

Lemma context_beyond_4000_is_ignored_witness :
  long_context "X" ≠ long_context "Y"
  ∧ slice (long_context "X") 0 4000 = slice (long_context "Y") 0 4000
  ∧ @generate_mcqs rewriting_llm sample_runtime (long_context "X") 3 "hard" []
    = @generate_mcqs rewriting_llm sample_runtime (long_context "Y") 3 "hard" [].
Proof.
  split; [| split].
  - intros Heq. apply (f_equal (λ s, String.get 4000 s)) in Heq.
    vm_compute in Heq. discriminate Heq.
  - vm_compute. reflexivity.
  - destruct (@context_beyond_4000_is_ignored rewriting_llm sample_runtime
                (long_context "X") (long_context "Y") "hard" 3 [])
      as (_ & _ & (_ & Hmcqs) & _); [vm_compute; reflexivity | exact Hmcqs].
Defined.

Lemma generators_never_return_empty_list_witness :
  1 ≤ 2
  ∧ @parses_to sample_runtime "[]" (VList [])
  ∧ is_fallback _generate_fallback_viva (λ _, True) "Osmosis." 2
      (@generate_viva_questions (stub_llm "[]") sample_runtime "Osmosis." 2 []).2.
Proof.
  assert (Hparse : @parses_to sample_runtime "[]" (VList [])).
  { split; [split; [discriminate | reflexivity] | reflexivity]. }
  split; [lia |]. split; [exact Hparse |].
  destruct (@generators_never_return_empty_list (stub_llm "[]") sample_runtime
              "Osmosis." "medium" 2 [] ltac:(lia)) as (_ & _ & _ & Hempty).
  destruct (Hempty "[]" Hparse) as (_ & _ & Hviva).
  apply Hviva. reflexivity.
Defined.

(** * Properties of the RAG engine *)

Section RAGEngineProperties.
Context `{LanguageModel} `{VectorStore} `{PyRuntime}.

(** The store after the wrapper fetched the history of [session_id]. *)
Lemma get_session_history_store (self : RAGEngine) (session_id : string) :
  store (get_session_history session_id self).1 !! session_id
  = Some (past_of self session_id)
  ∧ log (get_session_history session_id self).1 = log self
  ∧ (get_session_history session_id self).2 = Ok session_id.
Proof.
  unfold get_session_history, past_of.
  destruct (store self !! session_id) as [h|] eqn:E; simpl; [done |].
  by rewrite lookup_insert_eq.
Qed.

(** Unfold [answer_query] down to the provider calls. *)
Ltac unfold_answer_query :=
  unfold answer_query, try_except, conversational_rag_chain, rag_chain,
    get_docs, history_aware_query_chain, question_answer_chain, llm,
    retriever, messages, add_messages, raise, turn, past_of;
  unfold mbind, M_bind, mret, M_ret;
  unfold get_session_history.

(** A call that succeeds: the three provider calls succeeded, in this
    order, and the turn was appended to the history. *)
Lemma answer_query_Ok (self self' : RAGEngine) (query session_id : string)
    (r : query_result) :
  answer_query query session_id self = (self', Ok r) →
  ∃ standalone docs,
    llm_invoke (contextualize_q_prompt (turn self query session_id))
      = Ok standalone
    ∧ retriever_invoke standalone = Ok docs
    ∧ llm_invoke (qa_prompt (turn self query session_id) docs)
      = Ok (answer r)
    ∧ log self' = log self ++
        [LLMInvoke (contextualize_q_prompt (turn self query session_id));
         RetrieverInvoke standalone;
         LLMInvoke (qa_prompt (turn self query session_id) docs)]
    ∧ store self' = <[session_id := past_of self session_id
                        ++ [HumanMessage query; AIMessage (answer r)]]>
                      (store self)
    ∧ sources r = sources_of docs
    ∧ mode r = "qa".
Proof.
  unfold_answer_query.
  destruct (store self !! session_id) as [h|] eqn:E; simpl.
  - rewrite E. simpl.
    destruct (llm_invoke _) as [standalone|e] eqn:E1; [| done]. simpl.
    destruct (retriever_invoke standalone) as [docs|e] eqn:E2; [| done].
    simpl.
    destruct (llm_invoke (qa_prompt _ docs)) as [ans|e] eqn:E3; [| done].
    simpl. intros [= <- <-]. simpl.
    exists standalone, docs. rewrite E. simpl. rewrite <- !app_assoc.
    by destruct docs.
  - rewrite lookup_insert_eq. simpl.
    destruct (llm_invoke _) as [standalone|e] eqn:E1; [| done]. simpl.
    destruct (retriever_invoke standalone) as [docs|e] eqn:E2; [| done].
    simpl.
    destruct (llm_invoke (qa_prompt _ docs)) as [ans|e] eqn:E3; [| done].
    simpl. intros [= <- <-]. simpl.
    exists standalone, docs. rewrite lookup_insert_eq, insert_insert_eq.
    simpl. rewrite <- !app_assoc. by destruct docs.
Qed.

(** The provider calls of [answer_query], whatever its outcome. *)
Lemma answer_query_log (self : RAGEngine) (query session_id : string) :
  log (answer_query query session_id self).1
  = log self ++
    LLMInvoke (contextualize_q_prompt (turn self query session_id)) ::
    match llm_invoke (contextualize_q_prompt (turn self query session_id)) with
    | Ok standalone =>
        RetrieverInvoke standalone ::
        match retriever_invoke standalone with
        | Ok docs => [LLMInvoke (qa_prompt (turn self query session_id) docs)]
        | Raise _ => []
        end
    | Raise _ => []
    end.
Proof.
  unfold_answer_query.
  destruct (store self !! session_id) as [h|] eqn:E; simpl;
    [rewrite E | rewrite lookup_insert_eq]; simpl.
  all: destruct (llm_invoke _) as [standalone|e] eqn:E1; [| done]; simpl.
  all: destruct (retriever_invoke standalone) as [docs|e] eqn:E2; simpl;
    [| by rewrite <- !app_assoc].
  all: destruct (llm_invoke (qa_prompt _ docs)) as [ans|e] eqn:E3; simpl.
  all: by rewrite <- !app_assoc.
Qed.

Lemma new_calls_app (self self' : RAGEngine) (calls : list call) :
  log self' = log self ++ calls → new_calls self self' = calls.
Proof. unfold new_calls. intros ->. by rewrite drop_app_length. Qed.

(** The filtering loop keeps, in order, the chunks that [doc_id_in]
    accepts. *)
Lemma selected_doc_id_in (document_ids : list string)
    (metadata : option (gmap string string)) :
  selected document_ids metadata = doc_id_in document_ids metadata.
Proof.
  unfold selected, doc_id_in. destruct metadata as [m|]; simpl; [| done].
  destruct (m !! "doc_id") as [d|] eqn:E.
  - rewrite bool_decide_eq_false_2; [done |]. intros ->.
    by rewrite lookup_empty in E.
  - by rewrite andb_false_r.
Qed.

Lemma filter_chunks_zip (docs rest : list string) (document_ids : list string)
    (i : nat) (metas : list (option (gmap string string)))
    (all_chunks : list string) :
  drop i docs = rest → length rest = length metas →
  filter_chunks docs document_ids i metas all_chunks
  = Ok (all_chunks
        ++ (filter (λ c, doc_id_in document_ids c.2 = true)
                   (zip rest metas)).*1).
Proof.
  revert i rest all_chunks.
  induction metas as [|metadata metas IH]; intros i rest all_chunks Hdrop Hlen.
  - destruct rest; [| done]. simpl. by rewrite app_nil_r.
  - destruct rest as [|d rest]; [done |]. simpl.
    assert (Hi : docs !! i = Some d).
    { rewrite <- (Nat.add_0_r i), <- lookup_drop, Hdrop. done. }
    assert (Hdrop' : drop (S i) docs = rest).
    { rewrite (drop_S _ _ _ Hi) in Hdrop. by injection Hdrop. }
    rewrite selected_doc_id_in, filter_cons. simpl.
    destruct (doc_id_in document_ids metadata) eqn:Hsel.
    + rewrite Hi. rewrite decide_True by done.
      rewrite (IH (S i) rest) by (done || (simpl in Hlen; lia)).
      simpl. by rewrite <- app_assoc.
    + rewrite decide_False by done.
      apply IH; [done | simpl in Hlen; lia].
Qed.

(** The sources of a list of chunks: no duplicates, and exactly the
    [source_of] the chunks. *)
Lemma sources_of_NoDup (docs : list Document) : NoDup (sources_of docs).
Proof.
  unfold sources_of. destruct docs; [constructor | apply list_of_set_NoDup].
Qed.

Lemma sources_of_elem (docs : list Document) (x : string) :
  x ∈ sources_of docs ↔ ∃ doc, doc ∈ docs ∧ source_of doc = x.
Proof.
  unfold sources_of. destruct docs as [|doc0 docs].
  - split; [by intros ?%elem_of_nil | by intros (doc & ?%elem_of_nil & _)].
  - rewrite list_of_set_elem, list_elem_of_fmap.
    split; intros (doc & Ha & Hb); by exists doc.
Qed.

(** [get_documents_context] returns in every case. *)
Lemma get_documents_context_returns (self : RAGEngine)
    (document_ids : list string) :
  ∃ text, (get_documents_context document_ids self).2 = Ok text.
Proof.
  unfold get_documents_context, try_except, _collection_get, record, lift.
  unfold mbind, M_bind, mret, M_ret.
  destruct collection_get as [data|e]; [| by eexists].
  destruct (documents data); [by eexists |].
  destruct (filter_chunks _ _ _ _ _); by eexists.
Qed.

(** A call whose three provider calls succeed, succeeds. *)
Lemma answer_query_succeeds (self : RAGEngine) (query session_id : string)
    (standalone answer : string) (docs : list Document) :
  llm_invoke (contextualize_q_prompt (turn self query session_id))
    = Ok standalone →
  retriever_invoke standalone = Ok docs →
  llm_invoke (qa_prompt (turn self query session_id) docs) = Ok answer →
  (answer_query query session_id self).2
  = Ok {| answer := answer; sources := sources_of docs; mode := "qa" |}.
Proof.
  unfold_answer_query.
  intros Hq Hdocs Hans.
  destruct (store self !! session_id) as [h|] eqn:E; simpl in *;
    [rewrite E | rewrite lookup_insert_eq]; simpl.
  all: rewrite Hq; simpl; rewrite Hdocs; simpl; rewrite Hans; simpl.
  all: by destruct docs.
Qed.

End RAGEngineProperties.

Section RAGEngineTheorems.
Context `{LanguageModel} `{VectorStore} `{PyRuntime}.

(** C1, as the code has it.  [answer_query] sends the reformulation prompt
    to the model on every call, whether or not the session has a history:
    the first provider call is the model on the system instruction, the
    history (possibly empty) and the query; when that call returns, the
    next call is the retriever on the text the model returned. *)
Theorem reformulation_on_every_call
    (self : RAGEngine) (query session_id : string) :
  ∃ rest,
    new_calls self (answer_query query session_id self).1
    = LLMInvoke (contextualize_q_prompt (turn self query session_id)) :: rest
    ∧ match llm_invoke
              (contextualize_q_prompt (turn self query session_id)) with
      | Ok standalone => ∃ rest', rest = RetrieverInvoke standalone :: rest'
      | Raise _ => rest = []
      end.
Proof.
  eexists. split.
  - apply new_calls_app, answer_query_log.
  - destruct (llm_invoke _); [by eexists | done].
Qed.

(** C3.  For a session ID not seen before, [get_session_history] creates
    an empty history; the call works on that empty history (its first prompt
    is the system instruction followed by the query alone); and after a
    successful [answer_query] the history of the session is exactly the user
    turn (the query) followed by the assistant turn (the answer returned). *)
Theorem unseen_session_gets_one_exchange
    (self : RAGEngine) (query session_id : string) :
  store self !! session_id = None →
  store (get_session_history session_id self).1 !! session_id = Some []
  ∧ (∃ rest,
       new_calls self (answer_query query session_id self).1
       = LLMInvoke [SystemMessage contextualize_q_system_prompt;
                    HumanMessage query] :: rest)
  ∧ ∀ self' r,
      answer_query query session_id self = (self', Ok r) →
      store self' !! session_id
      = Some [HumanMessage query; AIMessage (answer r)].
Proof.
  intros Hnew.
  assert (Hpast : past_of self session_id = [])
    by (unfold past_of; by rewrite Hnew).
  split; [| split].
  - rewrite (proj1 (get_session_history_store self session_id)).
    by rewrite Hpast.
  - eexists. rewrite (new_calls_app _ _ _ (answer_query_log _ _ _)).
    unfold contextualize_q_prompt, turn. simpl. rewrite Hpast. reflexivity.
  - intros self' r Hrun.
    apply answer_query_Ok in Hrun as (_ & _ & _ & _ & _ & _ & Hstore & _).
    by rewrite Hstore, lookup_insert_eq, Hpast.
Qed.

(** C4.  After a successful [answer_query], the returned [sources] has no
    duplicates and is, as a set, the set of the [source] values (read with
    [metadata.get("source", "Unknown")]) of the chunks the retriever
    returned; when every retrieved chunk has a [source] field, it is the set
    of those fields. *)
Theorem sources_are_the_set_of_chunk_sources
    (self self' : RAGEngine) (query session_id : string) (r : query_result) :
  answer_query query session_id self = (self', Ok r) →
  ∃ standalone docs,
    RetrieverInvoke standalone ∈ new_calls self self'
    ∧ retriever_invoke standalone = Ok docs
    ∧ NoDup (sources r)
    ∧ (list_to_set (sources r) : gset string)
      = list_to_set (source_of <$> docs)
    ∧ ((∀ doc, doc ∈ docs → is_Some (metadata doc !! "source")) →
       ∀ s, s ∈ sources r
            ↔ ∃ doc, doc ∈ docs ∧ metadata doc !! "source" = Some s).
Proof.
  intros Hrun.
  apply answer_query_Ok in Hrun
    as (standalone & docs & _ & Hdocs & _ & Hlog & _ & Hsources & _).
  exists standalone, docs.
  rewrite (new_calls_app _ _ _ Hlog), Hsources.
  split; [set_solver |]. split; [done |].
  split; [apply sources_of_NoDup |]. split.
  - apply set_eq. intros x.
    rewrite !elem_of_list_to_set, sources_of_elem, list_elem_of_fmap.
    split; intros (doc & Ha & Hb); by exists doc.
  - intros Hschema s. rewrite sources_of_elem.
    split; intros (doc & Hdoc & Hsrc); exists doc; (split; [done |]).
    + destruct (Hschema doc Hdoc) as [x Hx].
      unfold source_of in Hsrc. rewrite Hx in Hsrc. simpl in Hsrc. by subst x.
    + unfold source_of. by rewrite Hsrc.
Qed.

(** C9.  After a successful [answer_query], every retrieved chunk whose
    metadata has no [source] field puts "Unknown" in the returned
    [sources]. *)
Theorem chunk_without_source_counts_as_unknown
    (self self' : RAGEngine) (query session_id : string) (r : query_result) :
  answer_query query session_id self = (self', Ok r) →
  ∃ standalone docs,
    RetrieverInvoke standalone ∈ new_calls self self'
    ∧ retriever_invoke standalone = Ok docs
    ∧ ∀ doc, doc ∈ docs → metadata doc !! "source" = None →
             "Unknown" ∈ sources r.
Proof.
  intros Hrun.
  apply answer_query_Ok in Hrun
    as (standalone & docs & _ & Hdocs & _ & Hlog & _ & Hsources & _).
  exists standalone, docs.
  rewrite (new_calls_app _ _ _ Hlog), Hsources.
  split; [set_solver |]. split; [done |].
  intros doc Hdoc Hnone. apply sources_of_elem. exists doc.
  split; [done |]. unfold source_of. by rewrite Hnone.
Qed.

(** C5, as the code has it.  When the scan of the vector store fails,
    [get_documents_context] makes that one call, catches the fault and
    returns the empty string; the fault does not reach the caller, and no
    second call is made. *)
Theorem store_fault_gives_empty_context
    (self : RAGEngine) (document_ids : list string) (e : exn) :
  collection_get = Raise e →
  get_documents_context document_ids self
  = ({| store := store self; log := log self ++ [CollectionGet] |}, Ok "").
Proof.
  intros Hfail.
  unfold get_documents_context, try_except, _collection_get, record.
  unfold mbind, M_bind, mret, M_ret. by rewrite Hfail.
Qed.

(** C6.  [get_documents_context] never raises.  On a scan of the store
    (two parallel lists, of one length) it returns the first 20 chunks, in
    store order, whose [doc_id] is in the given list, joined by a blank
    line; the result is the empty string when the store is empty or no chunk
    matches. *)
Theorem documents_context_is_first_20_matches
    (self : RAGEngine) (document_ids : list string) :
  (∃ text, (get_documents_context document_ids self).2 = Ok text)
  ∧ ∀ data,
      collection_get = Ok data →
      length (documents data) = length (metadatas data) →
      (get_documents_context document_ids self).2
        = Ok (String.concat (nl +:+ nl)
                (take 20 (matching_chunks document_ids data)))
      ∧ (documents data = [] →
         (get_documents_context document_ids self).2 = Ok "")
      ∧ (matching_chunks document_ids data = [] →
         (get_documents_context document_ids self).2 = Ok "").
Proof.
  split; [apply get_documents_context_returns |].
  intros data Hscan Hlen.
  assert (Hrun : (get_documents_context document_ids self).2
                 = Ok (String.concat (nl +:+ nl)
                         (take 20 (matching_chunks document_ids data)))).
  { unfold get_documents_context, try_except, _collection_get, record, lift.
    unfold mbind, M_bind, mret, M_ret. rewrite Hscan.
    unfold matching_chunks.
    pose proof (filter_chunks_zip (documents data) (documents data)
                  document_ids 0 (metadatas data) [] eq_refl Hlen) as Hloop.
    destruct (documents data) as [|d ds]; [done |].
    by rewrite Hloop. }
  split; [done |]. split.
  - intros Hempty. rewrite Hrun. unfold matching_chunks. by rewrite Hempty.
  - intros Hnone. rewrite Hrun. by rewrite Hnone.
Qed.

End RAGEngineTheorems.

(** C1, as stated, fails: on a first call of a session (empty history) the
    reformulation prompt is sent to the model, and the retriever receives the
    model's text, not the query. *)
Lemma reformulation_not_skipped_on_empty_history :
  past_of empty_engine "s1" = []
  ∧ LLMInvoke [SystemMessage contextualize_q_system_prompt;
               HumanMessage "What is osmosis?"] ∈ first_question_calls
  ∧ RetrieverInvoke "standalone: What is osmosis?" ∈ first_question_calls
  ∧ (RetrieverInvoke "What is osmosis?" ∉ first_question_calls)
  ∧ ¬ reformulation_skipped "What is osmosis?" first_question_calls.
Proof.
  assert (Hcalls : ∃ final, first_question_calls =
    [LLMInvoke [SystemMessage contextualize_q_system_prompt;
                HumanMessage "What is osmosis?"];
     RetrieverInvoke "standalone: What is osmosis?";
     LLMInvoke final]).
  { eexists. unfold first_question_calls.
    rewrite (new_calls_app _ _ _ (answer_query_log _ _ _)). reflexivity. }
  destruct Hcalls as [final ->].
  split; [done |]. split; [set_solver |]. split; [set_solver |].
  split.
  - intros Hin. repeat (apply elem_of_cons in Hin as [Heq | Hin]; [done |]).
    by apply elem_of_nil in Hin.
  - intros [Hnone _]. apply (Hnone []). set_solver.
Qed.

Lemma unseen_session_gets_one_exchange_witness :
  store empty_engine !! "s1" = None
  ∧ ∃ self' r,
      @answer_query rewriting_llm lecture_store sample_runtime
        "What is osmosis?" "s1" empty_engine = (self', Ok r)
      ∧ answer r = "standalone: What is osmosis?"
      ∧ store self' !! "s1"
        = Some [HumanMessage "What is osmosis?"; AIMessage (answer r)].
Proof.
  split; [done |].
  destruct (@answer_query rewriting_llm lecture_store sample_runtime
              "What is osmosis?" "s1" empty_engine) as [self' [r|e]] eqn:Hrun.
  - exists self', r. split; [done |].
    split; [by injection Hrun as _ <- |].
    by apply (@unseen_session_gets_one_exchange rewriting_llm lecture_store
                sample_runtime empty_engine "What is osmosis?" "s1").
  - discriminate Hrun.
Defined.

Lemma sources_are_the_set_of_chunk_sources_witness :
  ∃ self' r,
    @answer_query rewriting_llm lecture_store sample_runtime
      "What is osmosis?" "s1" empty_engine = (self', Ok r)
    ∧ NoDup (sources r)
    ∧ (list_to_set (sources r) : gset string) = {["bio.pdf"; "Unknown"]}.
Proof.
  destruct (@answer_query rewriting_llm lecture_store sample_runtime
              "What is osmosis?" "s1" empty_engine) as [self' [r|e]] eqn:Hrun;
    [| discriminate Hrun].
  exists self', r. split; [done |].
  destruct (@sources_are_the_set_of_chunk_sources rewriting_llm lecture_store
              sample_runtime _ _ _ _ _ Hrun)
    as (standalone & docs & _ & Hdocs & Hnodup & Hset & _).
  split; [done |]. rewrite Hset. injection Hdocs as <-.
  apply set_eq. intros x. rewrite elem_of_list_to_set.
  change (source_of <$> lecture_chunks) with ["bio.pdf"; "bio.pdf"; "Unknown"].
  rewrite !elem_of_cons, elem_of_nil, elem_of_union, !elem_of_singleton.
  tauto.
Defined.

Lemma chunk_without_source_counts_as_unknown_witness :
  ∃ self' r,
    @answer_query rewriting_llm lecture_store sample_runtime
      "What is osmosis?" "s1" empty_engine = (self', Ok r)
    ∧ "Unknown" ∈ sources r.
Proof.
  destruct (@answer_query rewriting_llm lecture_store sample_runtime
              "What is osmosis?" "s1" empty_engine) as [self' [r|e]] eqn:Hrun;
    [| discriminate Hrun].
  exists self', r. split; [done |].
  destruct (@chunk_without_source_counts_as_unknown rewriting_llm lecture_store
              sample_runtime _ _ _ _ _ Hrun)
    as (standalone & docs & _ & Hdocs & Hunknown).
  injection Hdocs as <-.
  apply (Hunknown (chunk "Handwritten note." [("doc_id", "d2")])).
  - unfold lecture_chunks. set_solver.
  - reflexivity.
Defined.

(** C5, as stated, fails: the fault of the store does not reach the
    caller. *)
Lemma store_fault_is_not_propagated :
  @collection_get broken_store = Raise (Fault "chroma unavailable")
  ∧ (@get_documents_context broken_store ["doc1"] empty_engine).2 = Ok ""
  ∧ (@get_documents_context broken_store ["doc1"] empty_engine).2
    ≠ Raise (Fault "chroma unavailable").
Proof. split; [reflexivity |]. split; [reflexivity | discriminate]. Qed.

Lemma store_fault_gives_empty_context_witness :
  @collection_get broken_store = Raise (Fault "chroma unavailable")
  ∧ @get_documents_context broken_store ["doc1"] empty_engine
    = ({| store := ∅; log := [CollectionGet] |}, Ok "").
Proof.
  split; [reflexivity |].
  apply (@store_fault_gives_empty_context broken_store empty_engine ["doc1"]
           (Fault "chroma unavailable")).
  reflexivity.
Defined.

Lemma documents_context_is_first_20_matches_witness :
  (@get_documents_context lecture_store ["doc1"] empty_engine).2
  = Ok (String.concat (nl +:+ nl) ((λ i, "c" +:+ pretty i) <$> seq 0 20))
  ∧ (@get_documents_context lecture_store ["unknown"] empty_engine).2 = Ok "".
Proof.
  split.
  - destruct (@documents_context_is_first_20_matches lecture_store
                empty_engine ["doc1"]) as (_ & Hscan).
    destruct (Hscan (append_scan (scan_of "doc1" 25) (scan_of "other" 5))
                eq_refl eq_refl) as (Hrun & _).
    rewrite Hrun. vm_compute. reflexivity.
  - destruct (@documents_context_is_first_20_matches lecture_store
                empty_engine ["unknown"]) as (_ & Hscan).
    destruct (Hscan (append_scan (scan_of "doc1" 25) (scan_of "other" 5))
                eq_refl eq_refl) as (_ & _ & Hnone).
    apply Hnone. vm_compute. reflexivity.
Defined.


(** * Further properties of the question generator *)

Lemma append_nil_r (s : string) : s +:+ "" = s.
Proof. induction s as [|a s IH]; [done |]. by rewrite append_cons, IH. Qed.

Lemma range_nonpositive (n : Z) : n ≤ 0 → range n = [].
Proof. intros Hn. unfold range. by replace (Z.to_nat n) with O by lia. Qed.

Lemma mod_2_even (i : nat) : (Z.of_nat i mod 2 =? 0) = Nat.even i.
Proof.
  destruct (Nat.even i) eqn:E.
  - apply Nat.even_spec in E as [k ->]. apply Z.eqb_eq.
    rewrite Nat2Z.inj_mul, Z.mul_comm. apply Z.mod_mul. lia.
  - assert (Hodd : Nat.odd i = true) by (by rewrite <- Nat.negb_even, E).
    apply Nat.odd_spec in Hodd as [k ->]. apply Z.eqb_neq.
    rewrite Nat2Z.inj_add, Nat2Z.inj_mul, Z.add_comm, Z.mul_comm.
    rewrite Z.mod_add by lia. done.
Qed.

(** The span of a reply that carries bracketed text between a lead without
    ['['] and a tail without [']']. *)
Lemma embedded_span (pre body post : string) :
  find "[" pre = -1 → rfind "]" post = -1 →
  let response := pre +:+ "[" +:+ body +:+ "]" +:+ post in
  find "[" response ≠ -1
  ∧ find "[" response < rfind "]" response + 1
  ∧ slice response (find "[" response) (rfind "]" response + 1)
    = "[" +:+ body +:+ "]".
Proof.
  intros Hpre Hpost response.
  assert (Hfind : find "[" response = Z.of_nat (String.length pre))
    by (by apply (find_app "[" pre (body +:+ "]" +:+ post))).
  assert (Hrfind : rfind "]" response
                   = Z.of_nat (String.length (pre +:+ "[" +:+ body))).
  { rewrite <- (rfind_app "]" (pre +:+ "[" +:+ body) post Hpost).
    unfold response. f_equal. by rewrite !append_assoc. }
  rewrite Hfind, Hrfind, !length_append. simpl String.length.
  split; [lia |]. split; [lia |].
  unfold response.
  replace (pre +:+ "[" +:+ body +:+ "]" +:+ post)
    with (pre +:+ ("[" +:+ body +:+ "]") +:+ post)
    by (by rewrite !append_assoc).
  replace (Z.of_nat (String.length pre + (1 + String.length body))%nat + 1)
    with (Z.of_nat (String.length pre)
          + Z.of_nat (String.length ("[" +:+ body +:+ "]")))
    by (rewrite !length_append; simpl String.length; lia).
  apply slice_middle.
Qed.

Section QuestionGeneratorFurther.
Context `{LanguageModel} `{PyRuntime}.

(** The parse of a reply is the decoding of its span. *)
Lemma parse_of_span (response : string) :
  find "[" response ≠ -1 →
  find "[" response < rfind "]" response + 1 →
  _parse_json_response response
  = match json_loads (slice response (find "[" response)
                        (rfind "]" response + 1)) with
    | Ok v => Ok v
    | Raise JSONDecodeError => Ok (VList [])
    | Raise e => Raise e
    end.
Proof.
  intros Hfind Hlt. unfold _parse_json_response.
  destruct (Z.eqb_spec (find "[" response) (-1)); [done |].
  by destruct (Z.ltb_spec (find "[" response) (rfind "]" response + 1));
    [| lia].
Qed.

(** X1.  A fault of the model call is raised to the caller of each
    generator as it is: the fallback list is not substituted for it, and the
    model was called once. *)
Theorem model_fault_reaches_the_caller
    (context difficulty : string) (n : Z) (log : list call) (e : exn) :
  (llm_invoke [HumanMessage
      (assignment_prompt n difficulty (slice context 0 4000))] = Raise e →
   generate_assignment context n difficulty log
   = (log ++ [LLMInvoke [HumanMessage
        (assignment_prompt n difficulty (slice context 0 4000))]], Raise e))
  ∧ (llm_invoke [HumanMessage
        (mcq_prompt n difficulty (slice context 0 4000))] = Raise e →
     generate_mcqs context n difficulty log
     = (log ++ [LLMInvoke [HumanMessage
          (mcq_prompt n difficulty (slice context 0 4000))]], Raise e))
  ∧ (llm_invoke [HumanMessage
        (viva_prompt n (slice context 0 4000))] = Raise e →
     generate_viva_questions context n log
     = (log ++ [LLMInvoke [HumanMessage
          (viva_prompt n (slice context 0 4000))]], Raise e)).
Proof.
  rewrite generate_assignment_run, generate_mcqs_run,
    generate_viva_questions_run. simpl.
  split; [| split]; intros Hfault; by rewrite Hfault.
Qed.

(** X2.  Only [JSONDecodeError] is turned into the fallback: when the
    decoder raises another exception on the span of the reply, each
    generator raises that exception. *)
Theorem other_decoder_exception_reaches_the_caller
    (context difficulty response : string) (n : Z) (log : list call)
    (e : exn) :
  has_brackets response →
  json_loads (bracket_span response) = Raise e →
  e ≠ JSONDecodeError →
  (llm_invoke [HumanMessage
      (assignment_prompt n difficulty (slice context 0 4000))] = Ok response →
   (generate_assignment context n difficulty log).2 = Raise e)
  ∧ (llm_invoke [HumanMessage
        (mcq_prompt n difficulty (slice context 0 4000))] = Ok response →
     (generate_mcqs context n difficulty log).2 = Raise e)
  ∧ (llm_invoke [HumanMessage
        (viva_prompt n (slice context 0 4000))] = Ok response →
     (generate_viva_questions context n log).2 = Raise e).
Proof.
  intros [Hfind Hlt] Hraise Hother.
  assert (Hparse : _parse_json_response response = Raise e).
  { rewrite (parse_of_span _ Hfind Hlt). unfold bracket_span in Hraise.
    rewrite Hraise. by destruct e. }
  rewrite generate_assignment_run, generate_mcqs_run,
    generate_viva_questions_run. simpl.
  split; [| split]; intros Hreply; rewrite Hreply; unfold outcome; simpl;
    unfold mbind, result_bind; by rewrite Hparse.
Qed.

(** X3.  A parsed list that is not empty is returned as it is, whatever
    [num_questions] says: the generators neither cut it down to
    [num_questions] items nor fill it up. *)
Theorem parsed_list_is_not_resized
    (context difficulty response : string) (items : list value) (n : Z)
    (log : list call) :
  parses_to response (VList items) →
  items ≠ [] →
  (llm_invoke [HumanMessage
      (assignment_prompt n difficulty (slice context 0 4000))] = Ok response →
   (generate_assignment context n difficulty log).2 = Ok (VList items))
  ∧ (llm_invoke [HumanMessage
        (mcq_prompt n difficulty (slice context 0 4000))] = Ok response →
     (generate_mcqs context n difficulty log).2 = Ok (VList items))
  ∧ (llm_invoke [HumanMessage
        (viva_prompt n (slice context 0 4000))] = Ok response →
     (generate_viva_questions context n log).2 = Ok (VList items)).
Proof.
  intros Hparse Hne. apply parse_parses_to in Hparse.
  rewrite generate_assignment_run, generate_mcqs_run,
    generate_viva_questions_run. simpl.
  split; [| split]; intros Hreply; rewrite Hreply; unfold outcome; simpl;
    unfold mbind, result_bind; rewrite Hparse; by apply choose_list.
Qed.

(** X4.  With [num_questions <= 0] the fallback list is empty: a reply
    that has no bracket span, or whose span [json.loads] rejects with
    [JSONDecodeError], or that parses to an empty array, makes each
    generator return the empty list. *)
Theorem nonpositive_count_gives_empty_list
    (context difficulty response : string) (n : Z) (log : list call) :
  n ≤ 0 →
  decode_error_or_no_span response ∨ parses_to response (VList []) →
  (llm_invoke [HumanMessage
      (assignment_prompt n difficulty (slice context 0 4000))] = Ok response →
   (generate_assignment context n difficulty log).2 = Ok (VList []))
  ∧ (llm_invoke [HumanMessage
        (mcq_prompt n difficulty (slice context 0 4000))] = Ok response →
     (generate_mcqs context n difficulty log).2 = Ok (VList []))
  ∧ (llm_invoke [HumanMessage
        (viva_prompt n (slice context 0 4000))] = Ok response →
     (generate_viva_questions context n log).2 = Ok (VList [])).
Proof.
  intros Hn Hreply.
  assert (Hparse : _parse_json_response response = Ok (VList []))
    by (destruct Hreply;
        [by apply parse_decode_error_or_no_span | by apply parse_parses_to]).
  rewrite generate_assignment_run, generate_mcqs_run,
    generate_viva_questions_run. simpl.
  unfold _generate_fallback_assignment, _generate_fallback_mcqs,
    _generate_fallback_viva. rewrite (range_nonpositive n Hn). simpl.
  split; [| split]; intros Hok; rewrite Hok; unfold outcome; simpl;
    unfold mbind, result_bind; by rewrite Hparse.
Qed.

(** X5.  In the fallback assignment the questions alternate between the
    types "theory" (questions 1, 3, ...) and "analytical" (questions 2, 4,
    ...), and every question carries 5 marks. *)
Theorem fallback_assignment_alternates (context : string) (n : Z) :
  ∃ items,
    _generate_fallback_assignment context n = VList items
    ∧ ∀ (i : nat) (item : value), items !! i = Some item →
        field "type" item
        = Some (VStr (if Nat.even i then "theory" else "analytical"))
        ∧ field "marks" item = Some (VInt 5).
Proof.
  eexists. split; [reflexivity |].
  intros i item. rewrite list_lookup_fmap.
  destruct (range n !! i) as [x|] eqn:E; [| done].
  apply lookup_range in E as ->. intros [= <-]. split; [| done].
  simpl. by rewrite mod_2_even.
Qed.

(** X6.  Text around the array does not matter: a reply that carries the
    bracketed text behind a lead without ['['] and before a tail without
    [']'] parses to what the bracketed text alone parses to. *)
Theorem prose_around_the_array_is_ignored (pre body post : string) :
  find "[" pre = -1 →
  rfind "]" post = -1 →
  _parse_json_response (pre +:+ "[" +:+ body +:+ "]" +:+ post)
  = _parse_json_response ("[" +:+ body +:+ "]").
Proof.
  intros Hpre Hpost.
  destruct (embedded_span pre body post Hpre Hpost) as (Hf & Hlt & Hspan).
  destruct (embedded_span "" body "" eq_refl eq_refl) as (Hf' & Hlt' & Hspan').
  change ("" +:+ "[" +:+ body +:+ "]" +:+ "") with ("[" +:+ body +:+ "]")
    in Hf', Hlt', Hspan'.
  rewrite (parse_of_span _ Hf Hlt), (parse_of_span _ Hf' Hlt').
  by rewrite Hspan, Hspan'.
Qed.

End QuestionGeneratorFurther.

Lemma model_fault_reaches_the_caller_witness :
  @generate_mcqs failing_llm sample_runtime "Osmosis." 3 "medium" []
  = ([LLMInvoke [HumanMessage (mcq_prompt 3 "medium" "Osmosis.")]],
     Raise (Fault "connection refused")).
Proof.
  destruct (@model_fault_reaches_the_caller failing_llm sample_runtime
              "Osmosis." "medium" 3 [] (Fault "connection refused"))
    as (_ & Hmcqs & _).
  apply Hmcqs. reflexivity.
Defined.

Lemma other_decoder_exception_reaches_the_caller_witness :
  @has_brackets "[[[[1]]]]"
  ∧ (@generate_assignment (stub_llm "[[[[1]]]]") overflowing_runtime
       "Osmosis." 3 "medium" []).2
    = Raise (Fault "maximum recursion depth exceeded").
Proof.
  assert (Hb : has_brackets "[[[[1]]]]") by (split; [discriminate | reflexivity]).
  split; [exact Hb |].
  destruct (@other_decoder_exception_reaches_the_caller
              (stub_llm "[[[[1]]]]") overflowing_runtime
              "Osmosis." "medium" "[[[[1]]]]" 3 []
              (Fault "maximum recursion depth exceeded") Hb eq_refl
              ltac:(discriminate)) as (Hassignment & _).
  apply Hassignment. reflexivity.
Defined.

Lemma parsed_list_is_not_resized_witness :
  length sample_items = 2%nat
  ∧ (@generate_mcqs chatty_llm sample_runtime "Osmosis." 7 "medium" []).2
    = Ok (VList sample_items).
Proof.
  split; [reflexivity |].
  assert (Hparse : @parses_to sample_runtime
            ("Here is the assignment:" +:+ nl +:+ sample_array_text
             +:+ nl +:+ "Good luck!") (VList sample_items)).
  { split; [split; [vm_compute; discriminate | vm_compute; reflexivity] |].
    vm_compute. reflexivity. }
  destruct (@parsed_list_is_not_resized chatty_llm sample_runtime
              "Osmosis." "medium" _ sample_items 7 [] Hparse
              ltac:(discriminate)) as (_ & Hmcqs & _).
  apply Hmcqs. reflexivity.
Defined.

Lemma nonpositive_count_gives_empty_list_witness :
  (@generate_viva_questions refusing_llm sample_runtime "Osmosis." 0 []).2
  = Ok (VList []).
Proof.
  destruct (@nonpositive_count_gives_empty_list refusing_llm sample_runtime
              "Osmosis." "medium"
              "I am sorry, I cannot produce questions for this content." 0 [])
    as (_ & _ & Hviva).
  - lia.
  - left. left. intros [Hfind _]. by apply Hfind.
  - apply Hviva. reflexivity.
Defined.

Lemma fallback_assignment_alternates_witness :
  ∃ items,
    _generate_fallback_assignment "Osmosis." 4 = VList items
    ∧ (field "type" <$> items)
      = [Some (VStr "theory"); Some (VStr "analytical");
         Some (VStr "theory"); Some (VStr "analytical")].
Proof.
  destruct (fallback_assignment_alternates "Osmosis." 4) as (items & Hitems & _).
  exists items. split; [done |].
  injection Hitems as <-. reflexivity.
Defined.

Lemma prose_around_the_array_is_ignored_witness :
  @_parse_json_response sample_runtime
    ("Here is the assignment:" +:+ nl +:+ sample_array_text
     +:+ nl +:+ "Good luck!")
  = @_parse_json_response sample_runtime sample_array_text.
Proof.
  apply (@prose_around_the_array_is_ignored sample_runtime
           ("Here is the assignment:" +:+ nl)
           (substring 1 (String.length sample_array_text - 2) sample_array_text)
           (nl +:+ "Good luck!")).
  - vm_compute. reflexivity.
  - vm_compute. reflexivity.
Defined.

(** * Further properties of the RAG engine *)

Section RAGEngineFurther.
Context `{LanguageModel} `{VectorStore} `{PyRuntime}.

(** The result of [answer_query]: the exception of the first provider call
    that fails, or the answer with its sources. *)
Lemma answer_query_result (self : RAGEngine) (query session_id : string) :
  (answer_query query session_id self).2
  = match llm_invoke (contextualize_q_prompt (turn self query session_id)) with
    | Raise e => Raise e
    | Ok standalone =>
        match retriever_invoke standalone with
        | Raise e => Raise e
        | Ok docs =>
            match llm_invoke (qa_prompt (turn self query session_id) docs) with
            | Raise e => Raise e
            | Ok text =>
                Ok {| answer := text; sources := sources_of docs;
                      mode := "qa" |}
            end
        end
    end.
Proof.
  unfold answer_query, try_except, conversational_rag_chain, rag_chain,
    get_docs, history_aware_query_chain, question_answer_chain, llm,
    retriever, messages, add_messages, raise, turn, past_of.
  unfold mbind, M_bind, mret, M_ret. unfold get_session_history.
  destruct (store self !! session_id) as [h|] eqn:E; simpl;
    [rewrite E | rewrite lookup_insert_eq]; simpl.
  all: destruct (llm_invoke _) as [standalone|e] eqn:E1; [| done]; simpl.
  all: destruct (retriever_invoke standalone) as [docs|e] eqn:E2; [| done];
    simpl.
  all: destruct (llm_invoke (qa_prompt _ docs)) as [text|e] eqn:E3; [| done];
    simpl.
  all: by destruct docs.
Qed.

(** The store after [answer_query]: the history of the session is its
    former history, followed by the exchange when the call succeeded. *)
Lemma answer_query_store (self : RAGEngine) (query session_id : string) :
  store (answer_query query session_id self).1
  = <[session_id :=
        match (answer_query query session_id self).2 with
        | Ok r => past_of self session_id
                  ++ [HumanMessage query; AIMessage (answer r)]
        | Raise _ => past_of self session_id
        end]> (store self).
Proof.
  unfold answer_query, try_except, conversational_rag_chain, rag_chain,
    get_docs, history_aware_query_chain, question_answer_chain, llm,
    retriever, messages, add_messages, raise, turn, past_of.
  unfold mbind, M_bind, mret, M_ret. unfold get_session_history.
  destruct (store self !! session_id) as [h|] eqn:E; simpl;
    [rewrite E | rewrite lookup_insert_eq]; simpl.
  all: destruct (llm_invoke _) as [standalone|e] eqn:E1; simpl.
  all: try destruct (retriever_invoke standalone) as [docs|e'] eqn:E2; simpl.
  all: try destruct (llm_invoke (qa_prompt _ docs)) as [text|e''] eqn:E3; simpl.
  all: rewrite ?E, ?lookup_insert_eq, ?insert_insert_eq; simpl.
  all: try done.
  all: symmetry; by apply insert_id.
Qed.

(** X7.  [answer_query] raises exactly the exception of the first provider
    call that fails (reformulation, then retrieval, then answer), and makes
    no provider call after the one that failed. *)
Theorem first_provider_fault_is_raised
    (self : RAGEngine) (query session_id : string) (e : exn) :
  let reformulate := contextualize_q_prompt (turn self query session_id) in
  ((answer_query query session_id self).2 = Raise e
   ↔ llm_invoke reformulate = Raise e
     ∨ (∃ standalone,
          llm_invoke reformulate = Ok standalone
          ∧ retriever_invoke standalone = Raise e)
     ∨ (∃ standalone docs,
          llm_invoke reformulate = Ok standalone
          ∧ retriever_invoke standalone = Ok docs
          ∧ llm_invoke (qa_prompt (turn self query session_id) docs)
            = Raise e))
  ∧ (llm_invoke reformulate = Raise e →
     new_calls self (answer_query query session_id self).1
     = [LLMInvoke reformulate])
  ∧ (∀ standalone,
       llm_invoke reformulate = Ok standalone →
       retriever_invoke standalone = Raise e →
       new_calls self (answer_query query session_id self).1
       = [LLMInvoke reformulate; RetrieverInvoke standalone]).
Proof.
  intros reformulate.
  rewrite answer_query_result,
    (new_calls_app _ _ _ (answer_query_log self query session_id)).
  fold reformulate. split; [| split].
  - destruct (llm_invoke reformulate) as [standalone|e1].
    + destruct (retriever_invoke standalone) as [docs|e2] eqn:E2.
      * destruct (llm_invoke (qa_prompt _ docs)) as [text|e3] eqn:E3.
        -- split; [done |].
           intros [? | [(s & [= <-] & ?) | (s & d & [= <-] & ? & ?)]];
             congruence.
        -- split.
           ++ intros [= ->]. right; right. by exists standalone, docs.
           ++ intros [? | [(s & [= <-] & ?) | (s & d & [= <-] & ? & ?)]];
                congruence.
      * split.
        -- intros [= ->]. right; left. by exists standalone.
        -- intros [? | [(s & [= <-] & ?) | (s & d & [= <-] & ? & ?)]];
             congruence.
    + split.
      * intros [= ->]. by left.
      * intros [? | [(s & ? & ?) | (s & d & ? & ? & ?)]]; congruence.
  - by intros ->.
  - intros standalone -> Hfail. by rewrite Hfail.
Qed.

(** X8.  A call that fails appends no turn: the session keeps the history
    it had (a session not seen before is left with an empty history). *)
Theorem failed_call_appends_no_turn
    (self self' : RAGEngine) (query session_id : string) (e : exn) :
  answer_query query session_id self = (self', Raise e) →
  store self' !! session_id = Some (past_of self session_id).
Proof.
  intros Hrun.
  pose proof (answer_query_store self query session_id) as Hstore.
  rewrite Hrun in Hstore. simpl in Hstore.
  by rewrite Hstore, lookup_insert_eq.
Qed.

(** X9.  A call for one session, whatever its outcome, leaves the history
    of every other session as it was. *)
Theorem other_sessions_are_untouched
    (self : RAGEngine) (query session_id other : string) :
  other ≠ session_id →
  store (answer_query query session_id self).1 !! other = store self !! other.
Proof.
  intros Hother. rewrite answer_query_store. by rewrite lookup_insert_ne.
Qed.

(** X10.  A successful call appends exactly one exchange to the history of
    the session, after the turns that were there. *)
Theorem successful_call_appends_one_exchange
    (self self' : RAGEngine) (query session_id : string) (r : query_result) :
  answer_query query session_id self = (self', Ok r) →
  store self' !! session_id
  = Some (past_of self session_id
          ++ [HumanMessage query; AIMessage (answer r)]).
Proof.
  intros Hrun.
  pose proof (answer_query_store self query session_id) as Hstore.
  rewrite Hrun in Hstore. simpl in Hstore.
  by rewrite Hstore, lookup_insert_eq.
Qed.

(** X11.  A follow-up question is reformulated on the previous exchange:
    after a successful call, the next call of the session sends the model
    the system instruction, the earlier turns, the previous question and
    answer, and the new question. *)
Theorem follow_up_sees_the_previous_exchange
    (self self1 : RAGEngine) (query1 query2 session_id : string)
    (r1 : query_result) :
  answer_query query1 session_id self = (self1, Ok r1) →
  ∃ rest,
    new_calls self1 (answer_query query2 session_id self1).1
    = LLMInvoke ([SystemMessage contextualize_q_system_prompt]
                 ++ past_of self session_id
                 ++ [HumanMessage query1; AIMessage (answer r1);
                     HumanMessage query2]) :: rest.
Proof.
  intros Hrun.
  pose proof (answer_query_store self query1 session_id) as Hstore.
  rewrite Hrun in Hstore. simpl in Hstore.
  eexists. rewrite (new_calls_app _ _ _ (answer_query_log _ _ _)).
  unfold contextualize_q_prompt, turn, past_of at 1. simpl.
  rewrite Hstore, lookup_insert_eq. simpl.
  by rewrite <- !app_assoc.
Qed.

(** X12.  A query costs at most two model calls and one retrieval, in that
    order, and never scans the collection.  The reformulated text is used
    for retrieval only: the answer prompt carries the retrieved chunks, the
    history and the query as the user wrote it. *)
Theorem query_call_sequence (self : RAGEngine) (query session_id : string) :
  (length (new_calls self (answer_query query session_id self).1) ≤ 3)%nat
  ∧ (CollectionGet ∉ new_calls self (answer_query query session_id self).1)
  ∧ ∀ standalone docs,
      llm_invoke (contextualize_q_prompt (turn self query session_id))
        = Ok standalone →
      retriever_invoke standalone = Ok docs →
      new_calls self (answer_query query session_id self).1
      = [LLMInvoke ([SystemMessage contextualize_q_system_prompt]
                    ++ past_of self session_id ++ [HumanMessage query]);
         RetrieverInvoke standalone;
         LLMInvoke ([SystemMessage (system_prompt (str_of_docs docs))]
                    ++ past_of self session_id ++ [HumanMessage query])].
Proof.
  rewrite (new_calls_app _ _ _ (answer_query_log self query session_id)).
  split; [| split].
  - destruct (llm_invoke _) as [standalone|e]; [| simpl; lia].
    destruct (retriever_invoke standalone); simpl; lia.
  - intros Hin. apply elem_of_cons in Hin as [Heq | Hin]; [done |].
    destruct (llm_invoke _) as [standalone|e]; [| by apply elem_of_nil in Hin].
    apply elem_of_cons in Hin as [Heq | Hin]; [done |].
    destruct (retriever_invoke standalone); [| by apply elem_of_nil in Hin].
    apply elem_of_cons in Hin as [Heq | Hin]; [done |].
    by apply elem_of_nil in Hin.
  - intros standalone docs Hq Hdocs. by rewrite Hq, Hdocs.
Qed.

(** X13.  The sources of a successful call are empty exactly when the
    retriever returned no chunk, and are never more than the chunks. *)
Theorem sources_are_empty_iff_nothing_retrieved
    (self self' : RAGEngine) (query session_id : string) (r : query_result) :
  answer_query query session_id self = (self', Ok r) →
  ∃ standalone docs,
    RetrieverInvoke standalone ∈ new_calls self self'
    ∧ retriever_invoke standalone = Ok docs
    ∧ (sources r = [] ↔ docs = [])
    ∧ (length (sources r) ≤ length docs)%nat.
Proof.
  intros Hrun.
  apply answer_query_Ok in Hrun
    as (standalone & docs & _ & Hdocs & _ & Hlog & _ & Hsources & _).
  exists standalone, docs.
  rewrite (new_calls_app _ _ _ Hlog), Hsources.
  split; [set_solver |]. split; [done |]. split.
  - split; [| by intros ->].
    intros Hempty. destruct docs as [|doc docs]; [done |].
    assert (Hin : source_of doc ∈ sources_of (doc :: docs))
      by (apply sources_of_elem; exists doc; split; [left | done]).
    rewrite Hempty in Hin. by apply elem_of_nil in Hin.
  - rewrite <- (length_fmap source_of docs).
    apply submseteq_length, NoDup_submseteq; [apply sources_of_NoDup |].
    intros x (doc & Hdoc & <-)%sources_of_elem.
    apply list_elem_of_fmap. by exists doc.
Qed.

(** X14.  [get_session_history] is idempotent: asking again changes
    nothing; a session that exists keeps its history; the histories of the
    other sessions are not touched. *)
Theorem get_session_history_is_idempotent
    (self : RAGEngine) (session_id : string) :
  get_session_history session_id (get_session_history session_id self).1
  = ((get_session_history session_id self).1, Ok session_id)
  ∧ (∀ history, store self !! session_id = Some history →
       get_session_history session_id self = (self, Ok session_id))
  ∧ (∀ other, other ≠ session_id →
       store (get_session_history session_id self).1 !! other
       = store self !! other).
Proof.
  unfold get_session_history.
  destruct (store self !! session_id) as [h|] eqn:E; simpl.
  - rewrite E. by repeat split.
  - rewrite lookup_insert_eq. split; [done |]. split; [done |].
    intros other Hother. by rewrite lookup_insert_ne.
Qed.

(** The loop is the same for two lists with the same elements. *)
Lemma selected_same_elements (ids1 ids2 : list string)
    (metadata : option (gmap string string)) :
  (∀ x, x ∈ ids1 ↔ x ∈ ids2) →
  selected ids1 metadata = selected ids2 metadata.
Proof.
  intros Hsame. unfold selected. destruct metadata as [m|]; [| done].
  destruct (m !! "doc_id") as [d|]; [| done].
  f_equal. apply bool_decide_ext, Hsame.
Qed.

Lemma filter_chunks_same_elements (docs ids1 ids2 : list string) (i : nat)
    (metas : list (option (gmap string string))) (all_chunks : list string) :
  (∀ x, x ∈ ids1 ↔ x ∈ ids2) →
  filter_chunks docs ids1 i metas all_chunks
  = filter_chunks docs ids2 i metas all_chunks.
Proof.
  intros Hsame. revert i all_chunks.
  induction metas as [|metadata metas IH]; intros i all_chunks; [done |].
  simpl. rewrite (selected_same_elements ids1 ids2 metadata Hsame).
  destruct (selected ids2 metadata); [| apply IH].
  destruct (docs !! i); [apply IH | done].
Qed.

(** X15.  The context depends on the set of the document IDs asked for:
    their order and repetitions do not matter. *)
Theorem context_depends_on_the_set_of_ids
    (self : RAGEngine) (ids1 ids2 : list string) :
  (∀ x, x ∈ ids1 ↔ x ∈ ids2) →
  get_documents_context ids1 self = get_documents_context ids2 self.
Proof.
  intros Hsame.
  unfold get_documents_context, try_except, _collection_get, record, lift.
  unfold mbind, M_bind, mret, M_ret.
  destruct collection_get as [data|e]; [| done].
  destruct (documents data) as [|d ds] eqn:Hdocs; [done |].
  by rewrite (filter_chunks_same_elements _ ids1 ids2 _ _ _ Hsame).
Qed.

(** X16.  [get_documents_context] reads: it leaves the histories of all
    sessions as they were and calls the store exactly once, and calls
    neither the model nor the retriever. *)
Theorem documents_context_only_scans
    (self : RAGEngine) (document_ids : list string) :
  store (get_documents_context document_ids self).1 = store self
  ∧ log (get_documents_context document_ids self).1
    = log self ++ [CollectionGet].
Proof.
  unfold get_documents_context, try_except, _collection_get, record, lift.
  unfold mbind, M_bind, mret, M_ret.
  destruct collection_get as [data|e]; [| done].
  destruct (documents data) as [|d ds]; [done |].
  by destruct (filter_chunks _ _ _ _ _).
Qed.

(** A selected entry of the metadata list that has no document raises
    [IndexError] in the loop. *)
Lemma filter_chunks_out_of_range (docs document_ids : list string)
    (k i : nat) (metas : list (option (gmap string string)))
    (m : option (gmap string string)) (all_chunks : list string) :
  metas !! i = Some m → selected document_ids m = true →
  (length docs ≤ k + i)%nat →
  filter_chunks docs document_ids k metas all_chunks = Raise IndexError.
Proof.
  revert k i all_chunks.
  induction metas as [|metadata metas IH]; intros k i all_chunks Hm Hsel Hlen;
    [done |].
  simpl. destruct i as [|i].
  - injection Hm as ->. rewrite Hsel.
    by rewrite (lookup_ge_None_2 docs k) by lia.
  - simpl in Hm.
    assert (Hnext : ∀ acc, filter_chunks docs document_ids (S k) metas acc
                           = Raise IndexError)
      by (intros acc; apply (IH (S k) i acc Hm Hsel); lia).
    destruct (selected document_ids metadata); [| apply Hnext].
    destruct (docs !! k); [apply Hnext | done].
Qed.

(** X17.  When the scan has a selected metadata entry beyond the end of the
    document list, the lookup of its document fails and the whole context is
    the empty string: the chunks collected before it are dropped. *)
Theorem selected_entry_without_document_gives_empty_context
    (self : RAGEngine) (document_ids : list string) (data : GetResult)
    (i : nat) (m : option (gmap string string)) :
  collection_get = Ok data →
  metadatas data !! i = Some m →
  selected document_ids m = true →
  (length (documents data) ≤ i)%nat →
  (get_documents_context document_ids self).2 = Ok "".
Proof.
  intros Hscan Hm Hsel Hlen.
  unfold get_documents_context, try_except, _collection_get, record, lift.
  unfold mbind, M_bind, mret, M_ret. rewrite Hscan.
  pose proof (filter_chunks_out_of_range (documents data) document_ids
                0 i (metadatas data) m [] Hm Hsel ltac:(simpl; lia)) as Hloop.
  destruct (documents data) as [|d ds]; [done |].
  by rewrite Hloop.
Qed.

Lemma filter_chunks_no_ids (docs : list string) (i : nat)
    (metas : list (option (gmap string string))) (all_chunks : list string) :
  filter_chunks docs [] i metas all_chunks = Ok all_chunks.
Proof.
  revert i all_chunks.
  induction metas as [|metadata metas IH]; intros i all_chunks; [done |].
  simpl. replace (selected [] metadata) with false; [apply IH |].
  unfold selected. destruct metadata as [m|]; [| done].
  destruct (m !! "doc_id") as [d|]; [| by rewrite andb_false_r].
  rewrite (bool_decide_eq_false_2 (d ∈ [])) by apply not_elem_of_nil.
  by rewrite andb_false_r.
Qed.

(** X18.  With an empty list of document IDs the context is the empty
    string, whatever the store holds or answers. *)
Theorem no_document_ids_give_empty_context (self : RAGEngine) :
  (get_documents_context [] self).2 = Ok "".
Proof.
  unfold get_documents_context, try_except, _collection_get, record, lift.
  unfold mbind, M_bind, mret, M_ret.
  destruct collection_get as [data|e]; [| done].
  destruct (documents data) as [|d ds] eqn:Hdocs; [done |].
  by rewrite filter_chunks_no_ids.
Qed.

End RAGEngineFurther.

(** * Properties of the maintenance operations and of construction *)

Lemma append_cancel_r (s s' t : string) : s +:+ t = s' +:+ t → s = s'.
Proof.
  intros Heq.
  assert (Hlen : String.length s = String.length s').
  { apply (f_equal String.length) in Heq. rewrite !length_append in Heq. lia. }
  revert s' Heq Hlen.
  induction s as [|a s IH]; intros [|a' s'] Heq Hlen; try done.
  rewrite !append_cons in Heq. injection Heq as -> Heq.
  f_equal. apply IH; [done |]. simpl in Hlen. lia.
Qed.

Section MaintenanceProperties.
Context `{LanguageModel} `{VectorStoreAdmin}.

(** X19.  [check_vectorstore] never raises and asks the store once.  Its
    status is "unavailable" exactly when the count fails, and otherwise
    tells the count: the status for [n] chunks is returned exactly when the
    store counts [n]. *)
Theorem check_vectorstore_reports_the_count (log : list store_call) :
  (∃ status,
     check_vectorstore log = (log ++ [CollectionCount], Ok status))
  ∧ ((check_vectorstore log).2 = Ok "unavailable"
     ↔ ∃ e, collection_count = Raise e)
  ∧ ∀ n, (check_vectorstore log).2
         = Ok ("operational (" +:+ pretty n +:+ " chunks)")
         ↔ collection_count = Ok n.
Proof.
  unfold check_vectorstore, try_except, _collection_count.
  unfold mbind, M_bind, mret, M_ret.
  destruct collection_count as [count|e]; simpl.
  - split; [by eexists |]. split.
    + split; [| by intros [e [=]]].
      intros Heq. injection Heq as Heq. discriminate Heq.
    + intros n. split; [| by intros [= ->]].
      intros Heq. injection Heq as Heq. f_equal.
      change (pretty count +:+ " chunks)" = pretty n +:+ " chunks)") in Heq.
      apply append_cancel_r in Heq. by apply (inj pretty) in Heq.
  - split; [by eexists |]. split.
    + split; [by exists e | done].
    + intros n. split; [| done].
      intros Heq. injection Heq as Heq. discriminate Heq.
Qed.

(** X20.  [check_llm] never raises: it sends the model the one message
    "Hello", reports "operational" exactly when that call returns and
    "unavailable" exactly when it fails, and leaves the histories of all
    sessions as they were. *)
Theorem check_llm_reports_the_model (self : RAGEngine) :
  store (check_llm self).1 = store self
  ∧ log (check_llm self).1 = log self ++ [LLMInvoke [HumanMessage "Hello"]]
  ∧ ((check_llm self).2 = Ok "operational"
     ↔ ∃ reply, llm_invoke [HumanMessage "Hello"] = Ok reply)
  ∧ ((check_llm self).2 = Ok "unavailable"
     ↔ ∃ e, llm_invoke [HumanMessage "Hello"] = Raise e).
Proof.
  unfold check_llm, try_except, llm, record.
  unfold mbind, M_bind, mret, M_ret.
  destruct (llm_invoke [HumanMessage "Hello"]) as [reply|e]; simpl.
  - repeat split; try done; [by exists reply | by intros [e [=]]].
  - repeat split; try done; [by intros [reply [=]] | by exists e].
Qed.

(** X21.  [delete_document] issues no delete call when the lookup finds no
    chunk of the document (it then returns normally) or when the lookup
    fails (the fault then reaches the caller as it is). *)
Theorem delete_document_without_matches
    (doc_id : string) (log : list store_call) :
  (∀ results,
     vectorstore_get doc_id = Ok results → ids results = [] →
     delete_document doc_id log = (log ++ [VectorstoreGet doc_id], Ok tt))
  ∧ (∀ e,
       vectorstore_get doc_id = Raise e →
       delete_document doc_id log
       = (log ++ [VectorstoreGet doc_id], Raise e)).
Proof.
  unfold delete_document, try_except, _vectorstore_get, raise.
  unfold mbind, M_bind, mret, M_ret.
  split.
  - intros results -> Hnone. by rewrite Hnone.
  - by intros e ->.
Qed.

(** X22.  When the lookup finds chunks of the document, [delete_document]
    issues one delete call, for exactly the IDs found, and its outcome is
    the outcome of that call: a fault of the deletion reaches the caller as
    it is. *)
Theorem delete_document_deletes_the_matches
    (doc_id : string) (log : list store_call) (results : WhereResult) :
  vectorstore_get doc_id = Ok results →
  ids results ≠ [] →
  delete_document doc_id log
  = (log ++ [VectorstoreGet doc_id; VectorstoreDelete (ids results)],
     vectorstore_delete (ids results)).
Proof.
  intros Hget Hsome.
  unfold delete_document, try_except, _vectorstore_get, _vectorstore_delete,
    raise.
  unfold mbind, M_bind, mret, M_ret. rewrite Hget.
  destruct (ids results) as [|chunk_id rest] eqn:Hids; [done |].
  rewrite <- app_assoc. simpl.
  by destruct (vectorstore_delete (chunk_id :: rest)) as [[]|e].
Qed.

End MaintenanceProperties.

(** X23.  Both services refuse to start without a key: [_initialize_llm]
    raises [ValueError] exactly when [GROQ_API_KEY] is unset or empty, and
    otherwise builds the client with that key and the model
    "openai/gpt-oss-120b" (the question generator with temperature 0.5 and
    at most 2048 tokens). *)
Theorem missing_or_empty_key_is_rejected (environ : gmap string string) :
  (RAGEngineInit._initialize_llm environ
     = ValueError "GROQ_API_KEY not found in environment"
   ↔ environ !! "GROQ_API_KEY" = None ∨ environ !! "GROQ_API_KEY" = Some "")
  ∧ (QuestionGeneratorInit._initialize_llm environ
       = ValueError "GROQ_API_KEY not found in environment"
     ↔ environ !! "GROQ_API_KEY" = None ∨ environ !! "GROQ_API_KEY" = Some "")
  ∧ ∀ key, environ !! "GROQ_API_KEY" = Some key → key ≠ "" →
      RAGEngineInit._initialize_llm environ
      = Constructed {| groq_api_key := key;
                       model_name := "openai/gpt-oss-120b";
                       temperature := None; max_tokens := None |}
      ∧ QuestionGeneratorInit._initialize_llm environ
        = Constructed {| groq_api_key := key;
                         model_name := "openai/gpt-oss-120b";
                         temperature := Some (S754_finite false 1 (-1));
                         max_tokens := Some 2048 |}.
Proof.
  unfold RAGEngineInit._initialize_llm, QuestionGeneratorInit._initialize_llm,
    getenv.
  destruct (environ !! "GROQ_API_KEY") as [key|].
  - destruct (String.eqb_spec key "") as [-> | Hne].
    + split; [split; [by right | done] |].
      split; [split; [by right | done] |]. by intros key [= <-].
    + split; [split; [done | by intros [? | [= ?]]] |].
      split; [split; [done | by intros [? | [= ?]]] |].
      by intros key' [= <-] _.
  - split; [split; [by left | done] |].
    split; [split; [by left | done] |]. done.
Qed.

(** * The further properties on the test doubles *)

Lemma first_provider_fault_is_raised_witness :
  (@answer_query failing_llm lecture_store sample_runtime
     "What is osmosis?" "s1" empty_engine).2
  = Raise (Fault "connection refused")
  ∧ new_calls empty_engine
      (@answer_query failing_llm lecture_store sample_runtime
         "What is osmosis?" "s1" empty_engine).1
    = [LLMInvoke [SystemMessage contextualize_q_system_prompt;
                  HumanMessage "What is osmosis?"]].
Proof.
  destruct (@first_provider_fault_is_raised failing_llm lecture_store
              sample_runtime empty_engine "What is osmosis?" "s1"
              (Fault "connection refused")) as (Hraised & Hcalls & _).
  split.
  - apply Hraised. left. reflexivity.
  - apply Hcalls. reflexivity.
Defined.

Lemma failed_call_appends_no_turn_witness :
  ∃ self',
    @answer_query failing_llm lecture_store sample_runtime
      "What is osmosis?" "s1" empty_engine
    = (self', Raise (Fault "connection refused"))
    ∧ store self' !! "s1" = Some [].
Proof.
  destruct (@answer_query failing_llm lecture_store sample_runtime
              "What is osmosis?" "s1" empty_engine) as [self' [r|e]] eqn:Hrun;
    [discriminate Hrun |].
  assert (He : e = Fault "connection refused") by (by injection Hrun as _ <-).
  subst e. exists self'. split; [done |].
  by apply (@failed_call_appends_no_turn failing_llm lecture_store
              sample_runtime empty_engine self' "What is osmosis?" "s1"
              (Fault "connection refused")).
Defined.

Lemma other_sessions_are_untouched_witness :
  store (@answer_query rewriting_llm lecture_store sample_runtime
           "What is diffusion?" "s2" engine_with_history).1 !! "s1"
  = Some [HumanMessage "What is osmosis?"; AIMessage "Movement of water."].
Proof.
  rewrite (@other_sessions_are_untouched rewriting_llm lecture_store
             sample_runtime engine_with_history "What is diffusion?" "s2" "s1")
    by discriminate.
  reflexivity.
Defined.

Lemma successful_call_appends_one_exchange_witness :
  ∃ self' r,
    @answer_query rewriting_llm lecture_store sample_runtime
      "And diffusion?" "s1" engine_with_history = (self', Ok r)
    ∧ store self' !! "s1"
      = Some [HumanMessage "What is osmosis?"; AIMessage "Movement of water.";
              HumanMessage "And diffusion?"; AIMessage (answer r)].
Proof.
  destruct (@answer_query rewriting_llm lecture_store sample_runtime
              "And diffusion?" "s1" engine_with_history)
    as [self' [r|e]] eqn:Hrun; [| discriminate Hrun].
  exists self', r. split; [done |].
  by rewrite (@successful_call_appends_one_exchange rewriting_llm lecture_store
                sample_runtime engine_with_history self' "And diffusion?" "s1"
                r Hrun).
Defined.

Lemma follow_up_sees_the_previous_exchange_witness :
  ∃ self1 r1 rest,
    @answer_query rewriting_llm lecture_store sample_runtime
      "What is osmosis?" "s1" empty_engine = (self1, Ok r1)
    ∧ new_calls self1
        (@answer_query rewriting_llm lecture_store sample_runtime
           "And diffusion?" "s1" self1).1
      = LLMInvoke [SystemMessage contextualize_q_system_prompt;
                   HumanMessage "What is osmosis?"; AIMessage (answer r1);
                   HumanMessage "And diffusion?"] :: rest.
Proof.
  destruct (@answer_query rewriting_llm lecture_store sample_runtime
              "What is osmosis?" "s1" empty_engine)
    as [self1 [r1|e]] eqn:Hrun; [| discriminate Hrun].
  destruct (@follow_up_sees_the_previous_exchange rewriting_llm lecture_store
              sample_runtime empty_engine self1 "What is osmosis?"
              "And diffusion?" "s1" r1 Hrun) as [rest Hcalls].
  by exists self1, r1, rest.
Defined.

Lemma query_call_sequence_witness :
  new_calls empty_engine
    (@answer_query rewriting_llm lecture_store sample_runtime
       "What is osmosis?" "s1" empty_engine).1
  = [LLMInvoke [SystemMessage contextualize_q_system_prompt;
                HumanMessage "What is osmosis?"];
     RetrieverInvoke "standalone: What is osmosis?";
     LLMInvoke [SystemMessage
                  (system_prompt (@str_of_docs sample_runtime lecture_chunks));
                HumanMessage "What is osmosis?"]].
Proof.
  destruct (@query_call_sequence rewriting_llm lecture_store sample_runtime
              empty_engine "What is osmosis?" "s1") as (_ & _ & Hcalls).
  apply (Hcalls "standalone: What is osmosis?" lecture_chunks);
    reflexivity.
Defined.

Lemma sources_are_empty_iff_nothing_retrieved_witness :
  ∃ self' r,
    @answer_query rewriting_llm broken_store sample_runtime
      "What is osmosis?" "s1" empty_engine = (self', Ok r)
    ∧ sources r = [].
Proof.
  destruct (@answer_query rewriting_llm broken_store sample_runtime
              "What is osmosis?" "s1" empty_engine)
    as [self' [r|e]] eqn:Hrun; [| discriminate Hrun].
  exists self', r. split; [done |].
  destruct (@sources_are_empty_iff_nothing_retrieved rewriting_llm
              broken_store sample_runtime _ _ _ _ _ Hrun)
    as (standalone & docs & _ & Hdocs & Hempty & _).
  apply Hempty. by injection Hdocs as <-.
Defined.

Lemma get_session_history_is_idempotent_witness :
  get_session_history "s1" engine_with_history
  = (engine_with_history, Ok "s1").
Proof.
  destruct (get_session_history_is_idempotent engine_with_history "s1")
    as (_ & Hkept & _).
  apply (Hkept [HumanMessage "What is osmosis?";
                AIMessage "Movement of water."]).
  reflexivity.
Defined.

Lemma context_depends_on_the_set_of_ids_witness :
  @get_documents_context lecture_store ["doc1"; "other"] empty_engine
  = @get_documents_context lecture_store ["other"; "doc1"; "doc1"]
      empty_engine.
Proof.
  apply (@context_depends_on_the_set_of_ids lecture_store empty_engine).
  intros x. rewrite !elem_of_cons, !elem_of_nil. tauto.
Defined.

Lemma selected_entry_without_document_gives_empty_context_witness :
  (@get_documents_context (stub_store [] (Ok ragged_scan)) ["doc1"]
     empty_engine).2 = Ok "".
Proof.
  apply (@selected_entry_without_document_gives_empty_context
           (stub_store [] (Ok ragged_scan)) empty_engine ["doc1"] ragged_scan
           1 (Some (list_to_map [("doc_id", "doc1")]))).
  - reflexivity.
  - reflexivity.
  - reflexivity.
  - simpl. lia.
Defined.

Lemma check_vectorstore_reports_the_count_witness :
  (@check_vectorstore (admin_store 30 [] false) []).2
  = Ok "operational (30 chunks)"
  ∧ (@check_vectorstore unreachable_store []).2 = Ok "unavailable".
Proof.
  split.
  - destruct (@check_vectorstore_reports_the_count (admin_store 30 [] false) [])
      as (_ & _ & Hcount).
    apply (Hcount 30). reflexivity.
  - destruct (@check_vectorstore_reports_the_count unreachable_store [])
      as (_ & Hdown & _).
    apply Hdown. by eexists.
Defined.

Lemma check_llm_reports_the_model_witness :
  (@check_llm failing_llm engine_with_history).2 = Ok "unavailable"
  ∧ (@check_llm rewriting_llm engine_with_history).2 = Ok "operational".
Proof.
  split.
  - destruct (@check_llm_reports_the_model failing_llm engine_with_history)
      as (_ & _ & _ & Hdown).
    apply Hdown. by eexists.
  - destruct (@check_llm_reports_the_model rewriting_llm engine_with_history)
      as (_ & _ & Hup & _).
    apply Hup. by eexists.
Defined.

Lemma delete_document_without_matches_witness :
  @delete_document (admin_store 30 [] false) "docX" []
  = ([VectorstoreGet "docX"], Ok tt)
  ∧ @delete_document unreachable_store "docX" []
    = ([VectorstoreGet "docX"], Raise (Fault "chroma unavailable")).
Proof.
  split.
  - destruct (@delete_document_without_matches (admin_store 30 [] false)
                "docX" []) as (Hnone & _).
    by apply (Hnone {| ids := [] |}).
  - destruct (@delete_document_without_matches unreachable_store "docX" [])
      as (_ & Hfault).
    by apply Hfault.
Defined.

Lemma delete_document_deletes_the_matches_witness :
  @delete_document (admin_store 30 ["id1"; "id2"] false) "doc1" []
  = ([VectorstoreGet "doc1"; VectorstoreDelete ["id1"; "id2"]], Ok tt)
  ∧ @delete_document (admin_store 30 ["id1"; "id2"] true) "doc1" []
    = ([VectorstoreGet "doc1"; VectorstoreDelete ["id1"; "id2"]],
       Raise (Fault "database is locked")).
Proof.
  split.
  - by apply (@delete_document_deletes_the_matches
                (admin_store 30 ["id1"; "id2"] false) "doc1" []
                {| ids := ["id1"; "id2"] |}).
  - by apply (@delete_document_deletes_the_matches
                (admin_store 30 ["id1"; "id2"] true) "doc1" []
                {| ids := ["id1"; "id2"] |}).
Defined.

Lemma missing_or_empty_key_is_rejected_witness :
  RAGEngineInit._initialize_llm {[ "GROQ_API_KEY" := "" ]}
  = ValueError "GROQ_API_KEY not found in environment"
  ∧ QuestionGeneratorInit._initialize_llm {[ "GROQ_API_KEY" := "gsk_test" ]}
    = Constructed {| groq_api_key := "gsk_test";
                     model_name := "openai/gpt-oss-120b";
                     temperature := Some (S754_finite false 1 (-1));
                     max_tokens := Some 2048 |}.
Proof.
  split.
  - destruct (missing_or_empty_key_is_rejected {[ "GROQ_API_KEY" := "" ]})
      as (Hrag & _).
    apply Hrag. by right.
  - destruct (missing_or_empty_key_is_rejected
                {[ "GROQ_API_KEY" := "gsk_test" ]}) as (_ & _ & Hbuilt).
    by apply (Hbuilt "gsk_test").
Defined.
